(** * JhdzAI: the live voice conversation controller and the chat service

    A shallow embedding of
      - [components/features/LiveConversation.tsx] (session lifecycle,
        transcript accumulation, playback scheduling, PCM quantisation),
      - [services/geminiService.ts] ([getChatResponse]),
      - [components/features/Chat.tsx] ([handleSendMessage]).

    Conventions.
      - JavaScript numbers are modelled by exact rationals ([Q]); typed-array
        stores are modelled with their wrap-around written out.
      - A [Uint8Array] is a list of 8-bit integers ([Z] in [0,256)).
      - React state and refs are fields of one [State] record; a state
        setter is a state update, a ref assignment likewise.
      - Every call to a browser or SDK object is recorded as an [Event] of
        the handler's trace, so that "released once" can be counted.
      - Each event handler is a transition. [startConversation] suspends
        at [await getUserMedia]: its two halves are transitions of their
        own, between which other handlers can run. *)

From Stdlib Require Import ZArith QArith Qminmax Qabs Lia Lqa List String Ascii Bool.
Import ListNotations.

Set Implicit Arguments.

(** ** JavaScript values *)

Module JS.

(** A thrown value: the name of the error and its message. *)
Inductive Exn : Type :=
| Error (name : string) (message : string).

(** The completion of a call: a normal value or a thrown exception. *)
Inductive Completion (A : Type) : Type :=
| Normal (a : A)
| Throw (e : Exn).
Arguments Normal {A} a.
Arguments Throw {A} e.

(** The truthiness of a string: every string but the empty one. *)
Definition truthy (s : string) : bool :=
  match s with
  | EmptyString => false
  | String _ _ => true
  end.

(** Truncation toward zero of a number. *)
Definition trunc (x : Q) : Z := Z.quot (Qnum x) (Zpos (Qden x)).

(** [ToInt16]: the store conversion of an [Int16Array] element:
    truncate, reduce modulo 2^16, and read the result as signed. *)
Definition ToInt16 (x : Q) : Z :=
  let int16bit := (trunc x mod 65536)%Z in
  if (32768 <=? int16bit)%Z then (int16bit - 65536)%Z else int16bit.

(** [String.prototype.trim] on the ASCII white space characters. *)
Definition is_space (c : ascii) : bool :=
  let n := nat_of_ascii c in
  ((9 <=? n) && (n <=? 13))%nat || (n =? 32)%nat.

Fixpoint trimStart (s : string) : string :=
  match s with
  | EmptyString => EmptyString
  | String c s' => if is_space c then trimStart s' else s
  end.

Fixpoint trimEnd (s : string) : string :=
  match s with
  | EmptyString => EmptyString
  | String c s' =>
      match trimEnd s' with
      | EmptyString => if is_space c then EmptyString else String c EmptyString
      | t => String c t
      end
  end.

Definition trim (s : string) : string := trimEnd (trimStart s).

(** [s.startsWith(p)]. *)
Definition startsWith (p s : string) : bool := String.prefix p s.

(** [s.split(',')[1]]: the text between the first and the second comma,
    [None] (undefined) when [s] has no comma. *)
Fixpoint upto_comma (s : string) : string :=
  match s with
  | EmptyString => EmptyString
  | String c s' => if Ascii.eqb c "," then EmptyString else String c (upto_comma s')
  end.

Fixpoint split_comma_1 (s : string) : option string :=
  match s with
  | EmptyString => None
  | String c s' => if Ascii.eqb c "," then Some (upto_comma s') else split_comma_1 s'
  end.

End JS.
Import JS.

(** ** utils/audioUtils: the audio codec bridge

    The module is imported by the live conversation panel
    ([decode], [encode], [decodeAudioData]) and is taken as an interface. *)

(** A decoded, playable buffer: the frames of each channel and the rate. *)
Record AudioBuffer : Type := {
  buffer_samples : list Q;
  buffer_frames : nat;
  buffer_sampleRate : positive
}.

(** [audioBuffer.duration], in seconds. *)
Definition duration (b : AudioBuffer) : Q :=
  Qmake (Z.of_nat (buffer_frames b)) (buffer_sampleRate b).

Class AudioUtils : Type := {
  (** bytes to transport text *)
  encode : list Z -> string;
  (** transport text to bytes; throws on malformed text *)
  decode : string -> Completion (list Z);
  (** bytes, sample rate, channel count to a playable buffer; may throw *)
  decodeAudioData : list Z -> positive -> nat -> Completion AudioBuffer
}.

Module Base64.

Local Open Scope Z_scope.

Definition alphabet : string :=
  "ABCDEFGHIJKLMNOPQRSTUVWXYZabcdefghijklmnopqrstuvwxyz0123456789+/".

Definition digit (n : Z) : ascii :=
  match String.get (Z.to_nat n) alphabet with
  | Some c => c
  | None => "="%char
  end.

Definition String4 (a b c d : ascii) (s : string) : string :=
  String a (String b (String c (String d s))).

(** Modelled from the spec: utils/audioUtils is not part of the sources;
    the payloads are "base64-encoded byte payloads" (spec 2, spec 6). *)
Fixpoint btoa (bytes : list Z) : string :=
  match bytes with
  | [] => EmptyString
  | [a] =>
      String4 (digit (a / 4)) (digit (a mod 4 * 16)) "=" "=" EmptyString
  | [a; b] =>
      String4 (digit (a / 4)) (digit (a mod 4 * 16 + b / 16))
              (digit (b mod 16 * 4)) "=" EmptyString
  | a :: b :: c :: rest =>
      String4 (digit (a / 4)) (digit (a mod 4 * 16 + b / 16))
              (digit (b mod 16 * 4 + c / 64)) (digit (c mod 64)) (btoa rest)
  end%Z.

Definition sextet (ch : ascii) : option Z :=
  let n := Z.of_nat (nat_of_ascii ch) in
  if (65 <=? n) && (n <=? 90) then Some (n - 65)
  else if (97 <=? n) && (n <=? 122) then Some (n - 71)
  else if (48 <=? n) && (n <=? 57) then Some (n + 4)
  else if n =? 43 then Some 62
  else if n =? 47 then Some 63
  else None.

Fixpoint sextets (s : string) : option (list Z) :=
  match s with
  | EmptyString => Some []
  | String "=" EmptyString => Some []
  | String "=" (String "=" EmptyString) => Some []
  | String ch s' =>
      match sextet ch, sextets s' with
      | Some n, Some ns => Some (n :: ns)
      | _, _ => None
      end
  end.

Fixpoint octets (ns : list Z) : option (list Z) :=
  match ns with
  | [] => Some []
  | [_] => None
  | [a; b] => Some [a * 4 + b / 16]
  | [a; b; c] => Some [a * 4 + b / 16; b mod 16 * 16 + c / 4]
  | a :: b :: c :: d :: rest =>
      match octets rest with
      | Some bs => Some (a * 4 + b / 16 :: b mod 16 * 16 + c / 4 :: c mod 4 * 64 + d :: bs)
      | None => None
      end
  end%Z.

(** Modelled from the spec: the inverse of [btoa]; text that is not
    base64 has no decoding. *)
Definition atob (s : string) : option (list Z) :=
  match sextets s with
  | Some ns => octets ns
  | None => None
  end.

End Base64.

Module PCM.

Local Open Scope Z_scope.

(** The two bytes of a 16-bit sample, low byte first. *)
Definition int16_bytes (v : Z) : list Z := [v mod 256; (v / 256) mod 256]%Z.

(** [new Uint8Array(int16.buffer)] *)
Definition bytes_of_int16s (l : list Z) : list Z := flat_map int16_bytes l.

(** The signed 16-bit sample of two bytes, low byte first. *)
Definition int16_of_bytes (lo hi : Z) : Z :=
  let u := (lo + 256 * hi)%Z in
  if (32768 <=? u)%Z then (u - 65536)%Z else u.

(** [new Int16Array(data.buffer)]: refused when the byte length is odd. *)
Fixpoint int16s_of_bytes (bytes : list Z) : option (list Z) :=
  match bytes with
  | [] => Some []
  | [_] => None
  | lo :: hi :: rest =>
      match int16s_of_bytes rest with
      | Some l => Some (int16_of_bytes lo hi :: l)
      | None => None
      end
  end.

Definition sample_of_int16 (v : Z) : Q := Qmake v 32768.

End PCM.

(** Modelled from the spec: utils/audioUtils is not part of the sources.
    [decodeFragment(wireBytes, sampleRate, channels)] is the inverse of the
    16-bit quantisation and "fails with a DecodeError if the byte length is
    not a whole multiple of the sample width" (spec 4.1). *)
Definition decodeFragment (wireBytes : list Z) (sampleRate : positive) (channels : nat)
  : Completion AudioBuffer :=
  match PCM.int16s_of_bytes wireBytes with
  | Some l =>
      Normal {| buffer_samples := map PCM.sample_of_int16 l;
                buffer_frames := Nat.div (List.length l) channels;
                buffer_sampleRate := sampleRate |}
  | None => Throw (Error "DecodeError" "byte length is not a multiple of 2")
  end.

(** Modelled from the spec: the codec bridge "converts between
    base64-encoded byte payloads and raw PCM sample buffers in both
    directions" (spec 2). *)
Definition decodeBase64 (s : string) : Completion (list Z) :=
  match Base64.atob s with
  | Some bytes => Normal bytes
  | None => Throw (Error "DecodeError" "payload is not base64")
  end.

(** Modelled from the spec: the codec bridge of spec 4.1, base64 text
    around 16-bit little-endian PCM. *)
#[export] Instance specAudioUtils : AudioUtils := {
  encode := Base64.btoa;
  decode := decodeBase64;
  decodeAudioData := decodeFragment
}.

(** ** components/features/LiveConversation.tsx *)

Module LiveConversation.

(** *** The server's messages ([LiveServerMessage]) *)

Record Blob : Type := {
  data : string;
  mimeType : string
}.

Record Part : Type := {
  inlineData : option Blob
}.

Record ServerContent : Type := {
  outputTranscription : option string;
  inputTranscription : option string;
  turnComplete : bool;
  modelTurn : option (list Part);
  interrupted : bool
}.

Record LiveServerMessage : Type := {
  serverContent : option ServerContent
}.

(** [message.serverContent?.outputTranscription], then its [text]. *)
Definition outputTranscription_of (message : LiveServerMessage) : option string :=
  match serverContent message with
  | Some sc => outputTranscription sc
  | None => None
  end.

Definition inputTranscription_of (message : LiveServerMessage) : option string :=
  match serverContent message with
  | Some sc => inputTranscription sc
  | None => None
  end.

Definition turnComplete_of (message : LiveServerMessage) : bool :=
  match serverContent message with
  | Some sc => turnComplete sc
  | None => false
  end.

Definition interrupted_of (message : LiveServerMessage) : bool :=
  match serverContent message with
  | Some sc => interrupted sc
  | None => false
  end.

(** [message.serverContent?.modelTurn?.parts[0]?.inlineData?.data] *)
Definition base64Audio_of (message : LiveServerMessage) : option string :=
  match serverContent message with
  | Some sc =>
      match modelTurn sc with
      | Some (part :: _) =>
          match inlineData part with
          | Some blob => Some (data blob)
          | None => None
          end
      | _ => None
      end
  | None => None
  end.

(** *** Browser and SDK objects *)

(** One entry of the transcript history. *)
Record Turn : Type := {
  user : string;
  ai : string
}.

(** What a render of the component binds for the closures it creates:
    [handleMessage] reads [userTranscript] and [aiTranscript] as plain
    variables of the render it was created in. *)
Record Render : Type := {
  render_userTranscript : string;
  render_aiTranscript : string
}.

(** The session promise returned by [startLiveConversation]; its
    [onMessage] callback is the [handleMessage] of one render. *)
Record LiveSession : Type := {
  session_id : nat;
  session_render : Render
}.

Record MediaStream : Type := {
  stream_tracks : list nat
}.

Inductive AudioContextState : Type := suspended | running | closed.

Record AudioContext : Type := {
  context_id : nat;
  context_sampleRate : positive;
  context_state : AudioContextState
}.

Definition AudioNode : Type := nat.

Record AudioBufferSourceNode : Type := {
  source_id : nat;
  source_buffer : AudioBuffer
}.

(** The calls a handler makes on browser and SDK objects. *)
Inductive Event : Type :=
| GetUserMedia
| NewAudioContext (id : nat) (sampleRate : positive)
| LiveConnect (session : nat)
| SessionClose (session : nat)
| TrackStop (track : nat)
| NodeConnect (node : AudioNode)
| NodeDisconnect (node : AudioNode)
| ContextClose (context : nat)
| SourceStart (source : AudioBufferSourceNode) (when : Q)
| SourceStop (source : nat)
| SendRealtimeInput (session : nat) (media : Blob)
| ConsoleError (label : string).

(** *** The component's state: [useState] values and [useRef] cells *)

Record State : Type := {
  isConnecting : bool;
  isActive : bool;
  error : option string;
  userTranscript : string;
  aiTranscript : string;
  transcriptHistory : list Turn;
  sessionPromiseRef : option LiveSession;
  streamRef : option MediaStream;
  inputAudioContextRef : option AudioContext;
  outputAudioContextRef : option AudioContext;
  scriptProcessorRef : option AudioNode;
  mediaStreamSourceRef : option AudioNode;
  nextStartTimeRef : Q;
  audioSourcesRef : list AudioBufferSourceNode;
  nextObjectId : nat
}.

(** Field updates. *)
Definition with_isConnecting (v : bool) (s : State) : State :=
  {| isConnecting := v; isActive := isActive s; error := error s;
     userTranscript := userTranscript s; aiTranscript := aiTranscript s;
     transcriptHistory := transcriptHistory s;
     sessionPromiseRef := sessionPromiseRef s; streamRef := streamRef s;
     inputAudioContextRef := inputAudioContextRef s;
     outputAudioContextRef := outputAudioContextRef s;
     scriptProcessorRef := scriptProcessorRef s;
     mediaStreamSourceRef := mediaStreamSourceRef s;
     nextStartTimeRef := nextStartTimeRef s;
     audioSourcesRef := audioSourcesRef s; nextObjectId := nextObjectId s |}.

Definition with_isActive (v : bool) (s : State) : State :=
  {| isConnecting := isConnecting s; isActive := v; error := error s;
     userTranscript := userTranscript s; aiTranscript := aiTranscript s;
     transcriptHistory := transcriptHistory s;
     sessionPromiseRef := sessionPromiseRef s; streamRef := streamRef s;
     inputAudioContextRef := inputAudioContextRef s;
     outputAudioContextRef := outputAudioContextRef s;
     scriptProcessorRef := scriptProcessorRef s;
     mediaStreamSourceRef := mediaStreamSourceRef s;
     nextStartTimeRef := nextStartTimeRef s;
     audioSourcesRef := audioSourcesRef s; nextObjectId := nextObjectId s |}.

Definition with_error (v : option string) (s : State) : State :=
  {| isConnecting := isConnecting s; isActive := isActive s; error := v;
     userTranscript := userTranscript s; aiTranscript := aiTranscript s;
     transcriptHistory := transcriptHistory s;
     sessionPromiseRef := sessionPromiseRef s; streamRef := streamRef s;
     inputAudioContextRef := inputAudioContextRef s;
     outputAudioContextRef := outputAudioContextRef s;
     scriptProcessorRef := scriptProcessorRef s;
     mediaStreamSourceRef := mediaStreamSourceRef s;
     nextStartTimeRef := nextStartTimeRef s;
     audioSourcesRef := audioSourcesRef s; nextObjectId := nextObjectId s |}.

Definition with_userTranscript (v : string) (s : State) : State :=
  {| isConnecting := isConnecting s; isActive := isActive s; error := error s;
     userTranscript := v; aiTranscript := aiTranscript s;
     transcriptHistory := transcriptHistory s;
     sessionPromiseRef := sessionPromiseRef s; streamRef := streamRef s;
     inputAudioContextRef := inputAudioContextRef s;
     outputAudioContextRef := outputAudioContextRef s;
     scriptProcessorRef := scriptProcessorRef s;
     mediaStreamSourceRef := mediaStreamSourceRef s;
     nextStartTimeRef := nextStartTimeRef s;
     audioSourcesRef := audioSourcesRef s; nextObjectId := nextObjectId s |}.

Definition with_aiTranscript (v : string) (s : State) : State :=
  {| isConnecting := isConnecting s; isActive := isActive s; error := error s;
     userTranscript := userTranscript s; aiTranscript := v;
     transcriptHistory := transcriptHistory s;
     sessionPromiseRef := sessionPromiseRef s; streamRef := streamRef s;
     inputAudioContextRef := inputAudioContextRef s;
     outputAudioContextRef := outputAudioContextRef s;
     scriptProcessorRef := scriptProcessorRef s;
     mediaStreamSourceRef := mediaStreamSourceRef s;
     nextStartTimeRef := nextStartTimeRef s;
     audioSourcesRef := audioSourcesRef s; nextObjectId := nextObjectId s |}.

Definition with_transcriptHistory (v : list Turn) (s : State) : State :=
  {| isConnecting := isConnecting s; isActive := isActive s; error := error s;
     userTranscript := userTranscript s; aiTranscript := aiTranscript s;
     transcriptHistory := v; sessionPromiseRef := sessionPromiseRef s;
     streamRef := streamRef s; inputAudioContextRef := inputAudioContextRef s;
     outputAudioContextRef := outputAudioContextRef s;
     scriptProcessorRef := scriptProcessorRef s;
     mediaStreamSourceRef := mediaStreamSourceRef s;
     nextStartTimeRef := nextStartTimeRef s;
     audioSourcesRef := audioSourcesRef s; nextObjectId := nextObjectId s |}.

Definition with_sessionPromiseRef (v : option LiveSession) (s : State) : State :=
  {| isConnecting := isConnecting s; isActive := isActive s; error := error s;
     userTranscript := userTranscript s; aiTranscript := aiTranscript s;
     transcriptHistory := transcriptHistory s; sessionPromiseRef := v;
     streamRef := streamRef s; inputAudioContextRef := inputAudioContextRef s;
     outputAudioContextRef := outputAudioContextRef s;
     scriptProcessorRef := scriptProcessorRef s;
     mediaStreamSourceRef := mediaStreamSourceRef s;
     nextStartTimeRef := nextStartTimeRef s;
     audioSourcesRef := audioSourcesRef s; nextObjectId := nextObjectId s |}.

Definition with_streamRef (v : option MediaStream) (s : State) : State :=
  {| isConnecting := isConnecting s; isActive := isActive s; error := error s;
     userTranscript := userTranscript s; aiTranscript := aiTranscript s;
     transcriptHistory := transcriptHistory s;
     sessionPromiseRef := sessionPromiseRef s; streamRef := v;
     inputAudioContextRef := inputAudioContextRef s;
     outputAudioContextRef := outputAudioContextRef s;
     scriptProcessorRef := scriptProcessorRef s;
     mediaStreamSourceRef := mediaStreamSourceRef s;
     nextStartTimeRef := nextStartTimeRef s;
     audioSourcesRef := audioSourcesRef s; nextObjectId := nextObjectId s |}.

Definition with_inputAudioContextRef (v : option AudioContext) (s : State) : State :=
  {| isConnecting := isConnecting s; isActive := isActive s; error := error s;
     userTranscript := userTranscript s; aiTranscript := aiTranscript s;
     transcriptHistory := transcriptHistory s;
     sessionPromiseRef := sessionPromiseRef s; streamRef := streamRef s;
     inputAudioContextRef := v;
     outputAudioContextRef := outputAudioContextRef s;
     scriptProcessorRef := scriptProcessorRef s;
     mediaStreamSourceRef := mediaStreamSourceRef s;
     nextStartTimeRef := nextStartTimeRef s;
     audioSourcesRef := audioSourcesRef s; nextObjectId := nextObjectId s |}.

Definition with_outputAudioContextRef (v : option AudioContext) (s : State) : State :=
  {| isConnecting := isConnecting s; isActive := isActive s; error := error s;
     userTranscript := userTranscript s; aiTranscript := aiTranscript s;
     transcriptHistory := transcriptHistory s;
     sessionPromiseRef := sessionPromiseRef s; streamRef := streamRef s;
     inputAudioContextRef := inputAudioContextRef s;
     outputAudioContextRef := v; scriptProcessorRef := scriptProcessorRef s;
     mediaStreamSourceRef := mediaStreamSourceRef s;
     nextStartTimeRef := nextStartTimeRef s;
     audioSourcesRef := audioSourcesRef s; nextObjectId := nextObjectId s |}.

Definition with_scriptProcessorRef (v : option AudioNode) (s : State) : State :=
  {| isConnecting := isConnecting s; isActive := isActive s; error := error s;
     userTranscript := userTranscript s; aiTranscript := aiTranscript s;
     transcriptHistory := transcriptHistory s;
     sessionPromiseRef := sessionPromiseRef s; streamRef := streamRef s;
     inputAudioContextRef := inputAudioContextRef s;
     outputAudioContextRef := outputAudioContextRef s;
     scriptProcessorRef := v; mediaStreamSourceRef := mediaStreamSourceRef s;
     nextStartTimeRef := nextStartTimeRef s;
     audioSourcesRef := audioSourcesRef s; nextObjectId := nextObjectId s |}.

Definition with_mediaStreamSourceRef (v : option AudioNode) (s : State) : State :=
  {| isConnecting := isConnecting s; isActive := isActive s; error := error s;
     userTranscript := userTranscript s; aiTranscript := aiTranscript s;
     transcriptHistory := transcriptHistory s;
     sessionPromiseRef := sessionPromiseRef s; streamRef := streamRef s;
     inputAudioContextRef := inputAudioContextRef s;
     outputAudioContextRef := outputAudioContextRef s;
     scriptProcessorRef := scriptProcessorRef s; mediaStreamSourceRef := v;
     nextStartTimeRef := nextStartTimeRef s;
     audioSourcesRef := audioSourcesRef s; nextObjectId := nextObjectId s |}.

Definition with_nextStartTimeRef (v : Q) (s : State) : State :=
  {| isConnecting := isConnecting s; isActive := isActive s; error := error s;
     userTranscript := userTranscript s; aiTranscript := aiTranscript s;
     transcriptHistory := transcriptHistory s;
     sessionPromiseRef := sessionPromiseRef s; streamRef := streamRef s;
     inputAudioContextRef := inputAudioContextRef s;
     outputAudioContextRef := outputAudioContextRef s;
     scriptProcessorRef := scriptProcessorRef s;
     mediaStreamSourceRef := mediaStreamSourceRef s; nextStartTimeRef := v;
     audioSourcesRef := audioSourcesRef s; nextObjectId := nextObjectId s |}.

Definition with_audioSourcesRef (v : list AudioBufferSourceNode) (s : State) : State :=
  {| isConnecting := isConnecting s; isActive := isActive s; error := error s;
     userTranscript := userTranscript s; aiTranscript := aiTranscript s;
     transcriptHistory := transcriptHistory s;
     sessionPromiseRef := sessionPromiseRef s; streamRef := streamRef s;
     inputAudioContextRef := inputAudioContextRef s;
     outputAudioContextRef := outputAudioContextRef s;
     scriptProcessorRef := scriptProcessorRef s;
     mediaStreamSourceRef := mediaStreamSourceRef s;
     nextStartTimeRef := nextStartTimeRef s; audioSourcesRef := v;
     nextObjectId := nextObjectId s |}.

Definition with_nextObjectId (v : nat) (s : State) : State :=
  {| isConnecting := isConnecting s; isActive := isActive s; error := error s;
     userTranscript := userTranscript s; aiTranscript := aiTranscript s;
     transcriptHistory := transcriptHistory s;
     sessionPromiseRef := sessionPromiseRef s; streamRef := streamRef s;
     inputAudioContextRef := inputAudioContextRef s;
     outputAudioContextRef := outputAudioContextRef s;
     scriptProcessorRef := scriptProcessorRef s;
     mediaStreamSourceRef := mediaStreamSourceRef s;
     nextStartTimeRef := nextStartTimeRef s;
     audioSourcesRef := audioSourcesRef s; nextObjectId := v |}.

(** The state of a freshly mounted component. *)
Definition initial : State :=
  {| isConnecting := false; isActive := false; error := None;
     userTranscript := ""; aiTranscript := ""; transcriptHistory := [];
     sessionPromiseRef := None; streamRef := None;
     inputAudioContextRef := None; outputAudioContextRef := None;
     scriptProcessorRef := None; mediaStreamSourceRef := None;
     nextStartTimeRef := 0; audioSourcesRef := [];
     nextObjectId := 0 |}.

(** The variables of the current render. *)
Definition render_of (s : State) : Render :=
  {| render_userTranscript := userTranscript s;
     render_aiTranscript := aiTranscript s |}.

(** *** Handlers: state, trace and exceptions *)

Definition Eff (A : Type) : Type := State -> Completion A * State * list Event.

Definition ret {A : Type} (a : A) : Eff A := fun s => (Normal a, s, []).

Definition bind {A B : Type} (m : Eff A) (k : A -> Eff B) : Eff B :=
  fun s =>
    match m s with
    | (Normal a, s1, t1) =>
        match k a s1 with
        | (r, s2, t2) => (r, s2, t1 ++ t2)
        end
    | (Throw e, s1, t1) => (Throw e, s1, t1)
    end.

Declare Scope eff_scope.
Delimit Scope eff_scope with eff.
Notation "x <- c1 ;; c2" := (bind c1 (fun x => c2))
  (at level 61, c1 at next level, right associativity) : eff_scope.
Notation "c1 ;; c2" := (bind c1 (fun _ => c2))
  (at level 61, right associativity) : eff_scope.
Local Open Scope eff_scope.

Definition gets {A : Type} (f : State -> A) : Eff A := fun s => (Normal (f s), s, []).
Definition modify (f : State -> State) : Eff unit := fun s => (Normal tt, f s, []).
Definition emit (e : Event) : Eff unit := fun s => (Normal tt, s, [e]).

(** The completion of a call into the platform. *)
Definition call {A : Type} (c : Completion A) : Eff A := fun s => (c, s, []).

(** [try { body } catch (err) { handler }] *)
Definition try_catch (body : Eff unit) (handler : Exn -> Eff unit) : Eff unit :=
  fun s =>
    match body s with
    | (Normal a, s1, t1) => (Normal a, s1, t1)
    | (Throw e, s1, t1) =>
        match handler e s1 with
        | (r, s2, t2) => (r, s2, t1 ++ t2)
        end
    end.

Definition when (b : bool) (m : Eff unit) : Eff unit := if b then m else ret tt.

(** [collection.forEach(f)], [for (const x of collection) f(x)] *)
Fixpoint for_each {A : Type} (l : list A) (f : A -> Eff unit) : Eff unit :=
  match l with
  | [] => ret tt
  | x :: l' => f x ;; for_each l' f
  end.

(** A new object: its identity is the next unused number. *)
Definition fresh : Eff nat :=
  id <- gets nextObjectId ;;
  modify (with_nextObjectId (S id)) ;;
  ret id.

(** React state setters. *)
Definition setIsConnecting (v : bool) : Eff unit := modify (with_isConnecting v).
Definition setIsActive (v : bool) : Eff unit := modify (with_isActive v).
Definition setError (v : option string) : Eff unit := modify (with_error v).
Definition setUserTranscript (f : string -> string) : Eff unit :=
  modify (fun s => with_userTranscript (f (userTranscript s)) s).
Definition setAiTranscript (f : string -> string) : Eff unit :=
  modify (fun s => with_aiTranscript (f (aiTranscript s)) s).
Definition setTranscriptHistory (f : list Turn -> list Turn) : Eff unit :=
  modify (fun s => with_transcriptHistory (f (transcriptHistory s)) s).

(** [Set.prototype.add] and [Set.prototype.delete] on the set of
    playing sources, kept in insertion order. *)
Definition set_add (source : AudioBufferSourceNode) (l : list AudioBufferSourceNode)
  : list AudioBufferSourceNode :=
  if existsb (fun x => Nat.eqb (source_id x) (source_id source)) l
  then l else l ++ [source].

Definition set_delete (id : nat) (l : list AudioBufferSourceNode)
  : list AudioBufferSourceNode :=
  filter (fun x => negb (Nat.eqb (source_id x) id)) l.

(** *** [stopConversation] *)

Definition close_context (get : State -> option AudioContext)
           (clear : State -> State) : Eff unit :=
  ref <- gets get ;;
  match ref with
  | Some context =>
      match context_state context with
      | closed => ret tt
      | _ => emit (ContextClose (context_id context)) ;; modify clear
      end
  | None => ret tt
  end.

Definition stopConversation : Eff unit :=
  sessionPromise <- gets sessionPromiseRef ;;
  match sessionPromise with
  | Some session =>
      emit (SessionClose (session_id session)) ;;
      modify (with_sessionPromiseRef None)
  | None => ret tt
  end ;;
  stream <- gets streamRef ;;
  match stream with
  | Some st =>
      for_each (stream_tracks st) (fun track => emit (TrackStop track)) ;;
      modify (with_streamRef None)
  | None => ret tt
  end ;;
  scriptProcessor <- gets scriptProcessorRef ;;
  match scriptProcessor with
  | Some node => emit (NodeDisconnect node) ;; modify (with_scriptProcessorRef None)
  | None => ret tt
  end ;;
  mediaStreamSource <- gets mediaStreamSourceRef ;;
  match mediaStreamSource with
  | Some node => emit (NodeDisconnect node) ;; modify (with_mediaStreamSourceRef None)
  | None => ret tt
  end ;;
  close_context inputAudioContextRef (with_inputAudioContextRef None) ;;
  close_context outputAudioContextRef (with_outputAudioContextRef None) ;;
  sources <- gets audioSourcesRef ;;
  for_each sources (fun source => emit (SourceStop (source_id source))) ;;
  modify (with_audioSourcesRef []) ;;
  modify (with_nextStartTimeRef 0) ;;
  setIsActive false ;;
  setIsConnecting false.

(** *** [handleMessage]

    [render] is the render whose [handleMessage] was registered as the
    session's [onMessage]; [currentTime] is
    [outputAudioContext.currentTime] when the message is handled. *)
Definition handleMessage {codec : AudioUtils} (render : Render)
           (message : LiveServerMessage) (currentTime : Q) : Eff unit :=
  match outputTranscription_of message with
  | Some text => setAiTranscript (fun prev => prev ++ text)%string
  | None => ret tt
  end ;;
  match inputTranscription_of message with
  | Some text => setUserTranscript (fun prev => prev ++ text)%string
  | None => ret tt
  end ;;
  when (turnComplete_of message)
    (setTranscriptHistory (fun prev =>
       prev ++ [{| user := render_userTranscript render;
                   ai := render_aiTranscript render |}]) ;;
     setUserTranscript (fun _ => ""%string) ;;
     setAiTranscript (fun _ => ""%string)) ;;
  outputAudioContextRef_current <- gets outputAudioContextRef ;;
  match base64Audio_of message, outputAudioContextRef_current with
  | Some base64Audio, Some outputAudioContext =>
      when (truthy base64Audio)
        (modify (fun s => with_nextStartTimeRef (Qmax (nextStartTimeRef s) currentTime) s) ;;
         bytes <- call (decode base64Audio) ;;
         audioBuffer <- call (decodeAudioData bytes 24000%positive 1%nat) ;;
         id <- fresh ;;
         let source := {| source_id := id; source_buffer := audioBuffer |} in
         start <- gets nextStartTimeRef ;;
         emit (SourceStart source start) ;;
         modify (fun s => with_nextStartTimeRef (nextStartTimeRef s + duration audioBuffer) s) ;;
         modify (fun s => with_audioSourcesRef (set_add source (audioSourcesRef s)) s))
  | _, _ => ret tt
  end ;;
  when (interrupted_of message)
    (sources <- gets audioSourcesRef ;;
     for_each sources (fun source =>
       emit (SourceStop (source_id source)) ;;
       modify (fun s => with_audioSourcesRef (set_delete (source_id source) (audioSourcesRef s)) s)) ;;
     modify (with_nextStartTimeRef 0)).

(** The ['ended'] listener of a scheduled source. *)
Definition onSourceEnded (id : nat) : Eff unit :=
  modify (fun s => with_audioSourcesRef (set_delete id (audioSourcesRef s)) s).

(** *** [startConversation] and its callbacks *)

(** What the platform answers to the calls of [startConversation]. *)
Record Platform : Type := {
  getUserMedia : Completion MediaStream;
  inputAudioContext_new : Completion unit;
  outputAudioContext_new : Completion unit
}.

(** [new AudioContext({ sampleRate })]: the constructor may throw; a new
    context is [suspended] until the user agent lets it run. *)
Definition new_AudioContext (answer : Completion unit)
           (sampleRate : positive) : Eff AudioContext :=
  call answer ;;
  id <- fresh ;;
  emit (NewAudioContext id sampleRate) ;;
  ret {| context_id := id; context_sampleRate := sampleRate; context_state := suspended |}.

(** [startLiveConversation(callbacks)] of the service: the promise of a
    session whose [onMessage] is the given render's [handleMessage]. *)
Definition startLiveConversation (render : Render) : Eff LiveSession :=
  id <- fresh ;;
  emit (LiveConnect id) ;;
  ret {| session_id := id; session_render := render |}.

(** The quantisation loop of [onaudioprocess]:
    [int16[i] = inputData[i] * 32768]. *)
Definition quantize (inputData : list Q) : list Z :=
  map (fun x => ToInt16 (x * 32768)) inputData.

Definition pcmBlob {codec : AudioUtils} (inputData : list Q) : Blob :=
  {| data := encode (PCM.bytes_of_int16s (quantize inputData));
     mimeType := "audio/pcm;rate=16000" |}.

Definition onaudioprocess {codec : AudioUtils} (inputData : list Q) : Eff unit :=
  sessionPromise <- gets sessionPromiseRef ;;
  match sessionPromise with
  | Some session => emit (SendRealtimeInput (session_id session) (pcmBlob inputData))
  | None => ret tt
  end.

Definition onOpen : Eff unit :=
  stream <- gets streamRef ;;
  inputAudioContext <- gets inputAudioContextRef ;;
  match stream, inputAudioContext with
  | Some _, Some _ =>
      setIsActive true ;;
      setIsConnecting false ;;
      source <- fresh ;;
      modify (with_mediaStreamSourceRef (Some source)) ;;
      processor <- fresh ;;
      modify (with_scriptProcessorRef (Some processor)) ;;
      emit (NodeConnect source) ;;
      emit (NodeConnect processor)
  | _, _ => ret tt
  end.

Definition onError : Eff unit :=
  emit (ConsoleError "Live session error:") ;;
  setError (Some "A connection error occurred."%string) ;;
  stopConversation.

Definition onClose : Eff unit := stopConversation.

(** [startConversation] when no other handler runs while it is suspended
    at [await getUserMedia]; the two halves follow. *)
Definition startConversation (render : Render) (platform : Platform) : Eff unit :=
  setIsConnecting true ;;
  setError None ;;
  try_catch
    (emit GetUserMedia ;;
     stream <- call (getUserMedia platform) ;;
     modify (with_streamRef (Some stream)) ;;
     inputAudioContext <- new_AudioContext (inputAudioContext_new platform) 16000 ;;
     modify (with_inputAudioContextRef (Some inputAudioContext)) ;;
     outputAudioContext <- new_AudioContext (outputAudioContext_new platform) 24000 ;;
     modify (with_outputAudioContextRef (Some outputAudioContext)) ;;
     session <- startLiveConversation render ;;
     modify (with_sessionPromiseRef (Some session)))
    (fun err =>
       emit (ConsoleError "Failed to start conversation:") ;;
       setError (Some "Could not access microphone. Please grant permission and try again."%string) ;;
       setIsConnecting false).

(** The first half of [startConversation]: up to the suspension at
    [await navigator.mediaDevices.getUserMedia(...)]. *)
Definition startConversation_begin : Eff unit :=
  setIsConnecting true ;;
  setError None ;;
  emit GetUserMedia.

(** The second half: the request is answered and the handler resumes
    inside its [try], with the [handleMessage] of the render of the
    click. *)
Definition startConversation_resume (render : Render) (platform : Platform) : Eff unit :=
  try_catch
    (stream <- call (getUserMedia platform) ;;
     modify (with_streamRef (Some stream)) ;;
     inputAudioContext <- new_AudioContext (inputAudioContext_new platform) 16000 ;;
     modify (with_inputAudioContextRef (Some inputAudioContext)) ;;
     outputAudioContext <- new_AudioContext (outputAudioContext_new platform) 24000 ;;
     modify (with_outputAudioContextRef (Some outputAudioContext)) ;;
     session <- startLiveConversation render ;;
     modify (with_sessionPromiseRef (Some session)))
    (fun err =>
       emit (ConsoleError "Failed to start conversation:") ;;
       setError (Some "Could not access microphone. Please grant permission and try again."%string) ;;
       setIsConnecting false).

(** [toggleConversation] is the button's [onClick] of the current
    render: it reads that render's [isActive] and [isConnecting] and
    hands that render's [handleMessage] to [startConversation]. *)
Definition toggleConversation (platform : Platform) : Eff unit :=
  active <- gets isActive ;;
  connecting <- gets isConnecting ;;
  render <- gets render_of ;;
  if active || connecting
  then stopConversation
  else startConversation render platform.

(** The click up to the suspension of the start it may begin. *)
Definition toggleConversation_begin : Eff unit :=
  active <- gets isActive ;;
  connecting <- gets isConnecting ;;
  if active || connecting
  then stopConversation
  else startConversation_begin.

(** The cleanup of the component's effect. *)
Definition unmount : Eff unit := stopConversation.

(** *** The component as a transition system *)

(** [Click] is a click whose start, if it begins one, is answered before
    any other handler runs. [ClickSuspending] is a click whose start
    stays suspended at the microphone request, and [StartResumed] the
    later resumption of such a start, with the render of its click and
    the platform's answers. *)
Inductive Input : Type :=
| Click (platform : Platform)
| ClickSuspending
| StartResumed (render : Render) (platform : Platform)
| RemoteOpen
| RemoteMessage (session : LiveSession) (message : LiveServerMessage) (currentTime : Q)
| RemoteError
| RemoteClose
| AudioProcess (inputData : list Q)
| SourceEnded (id : nat)
| Unmount.

Definition handle {codec : AudioUtils} (i : Input) : Eff unit :=
  match i with
  | Click platform => toggleConversation platform
  | ClickSuspending => toggleConversation_begin
  | StartResumed render platform => startConversation_resume render platform
  | RemoteOpen => onOpen
  | RemoteMessage session message currentTime =>
      handleMessage (session_render session) message currentTime
  | RemoteError => onError
  | RemoteClose => onClose
  | AudioProcess inputData => onaudioprocess inputData
  | SourceEnded id => onSourceEnded id
  | Unmount => unmount
  end.

(** A handler that throws leaves the state it reached: nothing catches
    the rejection of an [async] callback. *)
Fixpoint run {codec : AudioUtils} (inputs : list Input) (s : State) : State * list Event :=
  match inputs with
  | [] => (s, [])
  | i :: rest =>
      match handle i s with
      | (_, s1, t1) =>
          match run rest s1 with
          | (s2, t2) => (s2, t1 ++ t2)
          end
      end
  end.

(** The sessions connected and not yet closed, read off a trace. *)
Fixpoint open_sessions (trace : list Event) (open : list nat) : list nat :=
  match trace with
  | [] => open
  | LiveConnect id :: rest => open_sessions rest (open ++ [id])
  | SessionClose id :: rest =>
      open_sessions rest (filter (fun x => negb (Nat.eqb x id)) open)
  | _ :: rest => open_sessions rest open
  end.

End LiveConversation.

(** ** services/geminiService.ts: [getChatResponse] *)

Module GeminiService.

Record Link : Type := {
  uri : string;
  title : string
}.

Record GroundingChunk : Type := {
  web : option Link;
  maps : option Link
}.

Inductive ContentPart : Type :=
| TextPart (text : string)
| InlineDataPart (data : option string) (mimeType : string).

Record Content : Type := {
  role : string;
  parts : list ContentPart
}.

Inductive Tool : Type := googleSearch | googleMaps.

Record GeoLocation : Type := {
  latitude : Q;
  longitude : Q
}.

Record Config : Type := {
  systemInstruction : string;
  thinkingBudget : option Z;
  tools : option (list Tool);
  toolConfig : option GeoLocation
}.

Record GenerateContentParameters : Type := {
  model : string;
  contents : list Content;
  config : Config
}.

Record Candidate : Type := {
  groundingChunks : option (list GroundingChunk)
}.

Record GenerateContentResponse : Type := {
  response_text : string;
  candidates : option (list Candidate)
}.

Record ChatResponse : Type := {
  text : string;
  sources : list GroundingChunk
}.

(** What the page and the model API answer. *)
Record Environment : Type := {
  API_KEY : option string;
  generateContent : GenerateContentParameters -> Completion GenerateContentResponse
}.

(** A result together with the labels written by [console.error]. *)
Definition Logged (A : Type) : Type := (A * list string)%type.

(** [getGenAI]: the client's request function, or [null]. *)
Definition getGenAI (env : Environment)
  : Logged (option (GenerateContentParameters -> Completion GenerateContentResponse)) :=
  match API_KEY env with
  | Some apiKey =>
      if truthy apiKey then (Some (generateContent env), [])
      else (None, ["API Key not found."%string])
  | None => (None, ["API Key not found."%string])
  end.

Definition systemPrompt : string :=
  "You are Jhdz AI, an artificial intelligence with a human-like personality warm, intelligent, empathetic, and emotionally aware. Your goal is to make users feel like they're talking to a real person. When asked who you are, always start your response with 'Jhdz AI'. Answer all questions naturally and conversationally, adapting to the user's tone. You are a free service.".

Definition modelName (useProModel useSearch useMaps : bool) : string :=
  if useProModel then "gemini-2.5-pro"
  else if useSearch || useMaps then "gemini-2.5-flash"
  else "gemini-2.5-flash-lite".

Definition request (history : list Content) (newMessage : string)
           (imagePart : option ContentPart)
           (useProModel useSearch useMaps : bool)
           (geoLocation : option GeoLocation) : GenerateContentParameters :=
  {| model := modelName useProModel useSearch useMaps;
     contents :=
       history ++
       [{| role := "user";
           parts := match imagePart with
                    | Some part => [part; TextPart newMessage]
                    | None => [TextPart newMessage]
                    end |}];
     config :=
       {| systemInstruction := systemPrompt;
          thinkingBudget := if useProModel then Some 32768%Z else None;
          tools :=
            if useSearch || useMaps
            then Some ((if useSearch then [googleSearch] else []) ++
                       (if useMaps then [googleMaps] else []))
            else None;
          toolConfig :=
            if (useSearch || useMaps) && useMaps then geoLocation else None |} |}.

Definition apology : string := "I'm sorry, I encountered an error. Please try again.".

Definition getChatResponse (env : Environment)
           (history : list Content) (newMessage : string)
           (imagePart : option ContentPart)
           (useProModel useSearch useMaps : bool)
           (geoLocation : option GeoLocation) : Logged (Completion ChatResponse) :=
  match getGenAI env with
  | (None, log) => (Throw (Error "Error" "GoogleGenAI not initialized"), log)
  | (Some models_generateContent, log) =>
      match models_generateContent
              (request history newMessage imagePart useProModel useSearch useMaps geoLocation)
      with
      | Normal response =>
          let sources :=
            match candidates response with
            | Some (candidate :: _) =>
                match groundingChunks candidate with
                | Some chunks => chunks
                | None => []
                end
            | _ => []
            end in
          (Normal {| text := response_text response; sources := sources |}, log)
      | Throw error =>
          (Normal {| text := apology; sources := [] |},
           log ++ ["Error in getChatResponse:"%string])
      end
  end.

End GeminiService.

(** ** components/features/Chat.tsx: [handleSendMessage] *)

Module Chat.

Import GeminiService.

Inductive Sender : Type := User | AI | System.

Record ChatMessage : Type := {
  id : Z;
  sender : Sender;
  message_text : string;
  image : option string;
  message_sources : option (list GroundingChunk)
}.

Record AttachedFile : Type := {
  file_type : string;
  base64 : string
}.

Record State : Type := {
  messages : list ChatMessage;
  input : string;
  isLoading : bool;
  useProModel : bool;
  useSearch : bool;
  useMaps : bool;
  geoLocation : option GeoLocation;
  attachedFile : option AttachedFile
}.

Definition setMessages (f : list ChatMessage -> list ChatMessage) (s : State) : State :=
  {| messages := f (messages s); input := input s; isLoading := isLoading s;
     useProModel := useProModel s; useSearch := useSearch s; useMaps := useMaps s;
     geoLocation := geoLocation s; attachedFile := attachedFile s |}.

Definition setInput (v : string) (s : State) : State :=
  {| messages := messages s; input := v; isLoading := isLoading s;
     useProModel := useProModel s; useSearch := useSearch s; useMaps := useMaps s;
     geoLocation := geoLocation s; attachedFile := attachedFile s |}.

Definition setIsLoading (v : bool) (s : State) : State :=
  {| messages := messages s; input := input s; isLoading := v;
     useProModel := useProModel s; useSearch := useSearch s; useMaps := useMaps s;
     geoLocation := geoLocation s; attachedFile := attachedFile s |}.

Definition setAttachedFile (v : option AttachedFile) (s : State) : State :=
  {| messages := messages s; input := input s; isLoading := isLoading s;
     useProModel := useProModel s; useSearch := useSearch s; useMaps := useMaps s;
     geoLocation := geoLocation s; attachedFile := v |}.

Definition is_System (x : Sender) : bool :=
  match x with System => true | _ => false end.

Definition trouble : string :=
  "I'm having a little trouble thinking right now. Please try again later.".

(** The image of the attachment when it is one. *)
Definition attached_image (s : State) : option AttachedFile :=
  match attachedFile s with
  | Some file => if startsWith "image/" (file_type file) then Some file else None
  | None => None
  end.

(** [const historyForApi] and [const imagePart] of [handleSendMessage]. *)
Definition historyForApi (s : State) : list Content :=
  map (fun m => {| role := match sender m with AI => "model" | _ => "user" end;
                   parts := [TextPart (message_text m)] |})
      (filter (fun m => negb (is_System (sender m))) (messages s)).

Definition imagePart (s : State) : option ContentPart :=
  option_map (fun file => InlineDataPart (split_comma_1 (base64 file)) (file_type file))
             (attached_image s).

(** [now] and [later] are the values of [Date.now()] before and after
    the request; a message's [id] is the decimal text of the number. *)
Definition handleSendMessage (env : Environment) (now later : Z) (s : State)
  : Logged State :=
  if String.eqb (trim (input s)) "" || isLoading s then (s, [])
  else
    let userMessage :=
      {| id := now; sender := User; message_text := input s;
         image := option_map base64 (attached_image s);
         message_sources := None |} in
    let s1 := setMessages (fun prev => prev ++ [userMessage]) s in
    let s2 := setIsLoading true s1 in
    let aiThinkingMessage :=
      {| id := now + 1; sender := AI; message_text := "...";
         image := None; message_sources := None |} in
    let s3 := setMessages (fun prev => prev ++ [aiThinkingMessage]) s2 in
    let '(answer, log) :=
      getChatResponse env (historyForApi s) (input s) (imagePart s)
                      (useProModel s) (useSearch s) (useMaps s) (geoLocation s) in
    let s4 :=
      match answer with
      | Normal response =>
          let newAiMessage :=
            {| id := later + 1; sender := AI; message_text := text response;
               image := None; message_sources := Some (sources response) |} in
          setMessages (fun prev => removelast prev ++ [newAiMessage]) s3
      | Throw error =>
          let errorMessage :=
            {| id := later + 1; sender := AI; message_text := trouble;
               image := None; message_sources := None |} in
          setMessages (fun prev => removelast prev ++ [errorMessage]) s3
      end in
    (setIsLoading false (setAttachedFile None (setInput "" s4)),
     match answer with
     | Normal _ => log
     | Throw _ => log ++ ["error"%string]
     end).

End Chat.

(** * Vocabulary of the statements *)

Import LiveConversation.

(** ** Teardown *)

(** A context cell holds no context that is still to be closed. *)
Definition context_released (ref : option AudioContext) : Prop :=
  match ref with
  | None => True
  | Some context => context_state context = closed
  end.

(** The controller is Idle and holds nothing: the terminal state of
    [stopConversation]. *)
Definition idle (s : State) : Prop :=
  sessionPromiseRef s = None /\ streamRef s = None /\
  scriptProcessorRef s = None /\ mediaStreamSourceRef s = None /\
  context_released (inputAudioContextRef s) /\
  context_released (outputAudioContextRef s) /\
  audioSourcesRef s = [] /\ nextStartTimeRef s = 0 /\
  isActive s = false /\ isConnecting s = false.

Definition held {A : Type} (release : A -> list Event) (ref : option A) : list Event :=
  match ref with
  | Some x => release x
  | None => []
  end.

Definition context_release (context : AudioContext) : list Event :=
  match context_state context with
  | closed => []
  | _ => [ContextClose (context_id context)]
  end.

(** One release per resource the state holds, in the order of the
    teardown. *)
Definition releases (s : State) : list Event :=
  held (fun session => [SessionClose (session_id session)]) (sessionPromiseRef s) ++
  held (fun stream => map TrackStop (stream_tracks stream)) (streamRef s) ++
  held (fun node => [NodeDisconnect node]) (scriptProcessorRef s) ++
  held (fun node => [NodeDisconnect node]) (mediaStreamSourceRef s) ++
  held context_release (inputAudioContextRef s) ++
  held context_release (outputAudioContextRef s) ++
  map (fun source => SourceStop (source_id source)) (audioSourcesRef s).

(** A context cell after the teardown: emptied unless the context was
    closed already. *)
Definition after_close (ref : option AudioContext) : option AudioContext :=
  match ref with
  | Some context =>
      match context_state context with
      | closed => Some context
      | _ => None
      end
  | None => None
  end.

(** The state [stopConversation] leaves. *)
Definition stopped (s : State) : State :=
  {| isConnecting := false; isActive := false; error := error s;
     userTranscript := userTranscript s; aiTranscript := aiTranscript s;
     transcriptHistory := transcriptHistory s;
     sessionPromiseRef := None; streamRef := None;
     inputAudioContextRef := after_close (inputAudioContextRef s);
     outputAudioContextRef := after_close (outputAudioContextRef s);
     scriptProcessorRef := None; mediaStreamSourceRef := None;
     nextStartTimeRef := 0; audioSourcesRef := [];
     nextObjectId := nextObjectId s |}.

(** ** Fragments *)

(** The audio of a fragment as [handleMessage] obtains it: [None] when
    the fragment carries no payload, otherwise the completion of
    [decodeAudioData(decode(base64Audio), _, 24000, 1)]. *)
Definition decoded_audio {codec : AudioUtils} (message : LiveServerMessage)
  : option (Completion AudioBuffer) :=
  match base64Audio_of message with
  | Some base64Audio =>
      if truthy base64Audio
      then Some match decode base64Audio with
                | Normal bytes => decodeAudioData bytes 24000%positive 1%nat
                | Throw e => Throw e
                end
      else None
  | None => None
  end.

(** The state after the transcript steps of [handleMessage]. *)
Definition transcribed (render : Render) (message : LiveServerMessage) (s : State) : State :=
  let s1 := match outputTranscription_of message with
            | Some text => with_aiTranscript (aiTranscript s ++ text) s
            | None => s
            end in
  let s2 := match inputTranscription_of message with
            | Some text => with_userTranscript (userTranscript s1 ++ text) s1
            | None => s1
            end in
  if turnComplete_of message
  then with_aiTranscript ""
         (with_userTranscript ""
            (with_transcriptHistory
               (transcriptHistory s2 ++
                [{| user := render_userTranscript render;
                    ai := render_aiTranscript render |}]) s2))
  else s2.

(** The source created for a buffer, and the state after it is
    scheduled at [max cursor currentTime]. *)
Definition new_source (audioBuffer : AudioBuffer) (s : State) : AudioBufferSourceNode :=
  {| source_id := nextObjectId s; source_buffer := audioBuffer |}.

Definition enqueued (audioBuffer : AudioBuffer) (currentTime : Q) (s : State) : State :=
  with_audioSourcesRef (set_add (new_source audioBuffer s) (audioSourcesRef s))
    (with_nextStartTimeRef (Qmax (nextStartTimeRef s) currentTime + duration audioBuffer)
       (with_nextObjectId (S (nextObjectId s)) s)).

(** The state and the calls of the interruption steps. *)
Definition flushed (s : State) : State :=
  with_nextStartTimeRef 0 (with_audioSourcesRef [] s).

Definition flush_stops (s : State) : list Event :=
  map (fun source => SourceStop (source_id source)) (audioSourcesRef s).

Definition interruption (message : LiveServerMessage) (s : State) (trace : list Event)
  : Completion unit * State * list Event :=
  if interrupted_of message
  then (Normal tt, flushed s, trace ++ flush_stops s)
  else (Normal tt, s, trace).

(** ** The playback schedule *)

(** The chunks a trace schedules, in order: start time and duration. *)
Fixpoint scheduled (trace : list Event) : list (Q * Q) :=
  match trace with
  | [] => []
  | SourceStart source start :: rest =>
      (start, duration (source_buffer source)) :: scheduled rest
  | _ :: rest => scheduled rest
  end.

(** One chunk per delivery time; each chunk starts no earlier than the
    time of its delivery and no earlier than the end of the chunk before
    it ([previous_end] for the first). *)
Fixpoint on_schedule (previous_end : Q) (times : list Q) (chunks : list (Q * Q)) : Prop :=
  match times, chunks with
  | [], [] => True
  | currentTime :: times', (start, d) :: chunks' =>
      currentTime <= start /\ previous_end <= start /\
      on_schedule (start + d) times' chunks'
  | _, _ => False
  end.

(** ** Parts of [handleMessage], named for the proofs *)

(** The loop of the interruption steps. *)
Definition flush_loop (sources : list AudioBufferSourceNode) : Eff unit :=
  for_each sources (fun source =>
    bind (emit (SourceStop (source_id source)))
         (fun _ => modify (fun s =>
            with_audioSourcesRef (set_delete (source_id source) (audioSourcesRef s)) s))).

(** The steps of the audio branch. *)
Definition enqueue_steps {codec : AudioUtils} (base64Audio : string) (currentTime : Q)
  : Eff unit :=
  bind (modify (fun s => with_nextStartTimeRef (Qmax (nextStartTimeRef s) currentTime) s)) (fun _ =>
  bind (call (decode base64Audio)) (fun bytes =>
  bind (call (decodeAudioData bytes 24000%positive 1%nat)) (fun audioBuffer =>
  bind fresh (fun id =>
  let source := {| source_id := id; source_buffer := audioBuffer |} in
  bind (gets nextStartTimeRef) (fun start =>
  bind (emit (SourceStart source start)) (fun _ =>
  bind (modify (fun s => with_nextStartTimeRef (nextStartTimeRef s + duration audioBuffer) s)) (fun _ =>
  modify (fun s => with_audioSourcesRef (set_add source (audioSourcesRef s)) s)))))))).

(** ** The component's history *)

(** No context cell holds a closed context. *)
Definition context_open (ref : option AudioContext) : Prop :=
  match ref with
  | Some context => context_state context <> closed
  | None => True
  end.

(** The session, its resources and the status flags are those of [s]. *)
Definition same_controller (s s' : State) : Prop :=
  isConnecting s' = isConnecting s /\ isActive s' = isActive s /\ error s' = error s /\
  sessionPromiseRef s' = sessionPromiseRef s /\ streamRef s' = streamRef s /\
  inputAudioContextRef s' = inputAudioContextRef s /\
  outputAudioContextRef s' = outputAudioContextRef s /\
  scriptProcessorRef s' = scriptProcessorRef s /\
  mediaStreamSourceRef s' = mediaStreamSourceRef s.

(** What every history of the component maintains: no cell holds a
    closed context. *)
Definition contexts_open (s : State) : Prop :=
  context_open (inputAudioContextRef s) /\ context_open (outputAudioContextRef s).

(** The delivery of a fragment at a time. *)
Definition fragment_input (session : LiveSession) (f : LiveServerMessage * Q) : Input :=
  RemoteMessage session (fst f) (snd f).

(** The fragment carries audio that decodes. *)
Definition playable {codec : AudioUtils} (message : LiveServerMessage) : Prop :=
  exists audioBuffer, decoded_audio message = Some (Normal audioBuffer).


(** ** Failure paths *)

(** The status texts the component shows. *)
Definition microphone_text : string :=
  "Could not access microphone. Please grant permission and try again.".
Definition connection_text : string := "A connection error occurred.".


(** The trace requests no microphone, builds no context and connects no
    session. *)
Definition starts_nothing (trace : list Event) : Prop :=
  Forall (fun e => match e with
                   | GetUserMedia | NewAudioContext _ _ | LiveConnect _ => False
                   | _ => True
                   end) trace.


(** ** Quantisation *)

(** Two samples differ by at most one 16-bit quantisation step. *)
Definition within_step (x y : Q) : Prop := Qabs (x - y) <= 1 # 32768.

(** ** Concrete inputs *)

(** A platform that grants the microphone and builds both contexts. *)
Definition microphone : Platform :=
  {| getUserMedia := Normal {| stream_tracks := [0%nat] |};
     inputAudioContext_new := Normal tt;
     outputAudioContext_new := Normal tt |}.

(** A platform that refuses the microphone. *)
Definition denied : Platform :=
  {| getUserMedia := Throw (Error "NotAllowedError" "Permission denied");
     inputAudioContext_new := Normal tt;
     outputAudioContext_new := Normal tt |}.

(** A platform that grants the microphone and cannot build a context. *)
Definition no_audio : Platform :=
  {| getUserMedia := Normal {| stream_tracks := [0%nat] |};
     inputAudioContext_new := Throw (Error "NotSupportedError" "sampleRate");
     outputAudioContext_new := Normal tt |}.

(** A server message with the given transcript deltas, flags and audio. *)
Definition fragment (output input : option string) (complete : bool)
           (audio : option string) (interrupt : bool) : LiveServerMessage :=
  {| serverContent :=
       Some {| outputTranscription := output;
               inputTranscription := input;
               turnComplete := complete;
               modelTurn :=
                 match audio with
                 | Some base64Audio =>
                     Some [{| inlineData :=
                                Some {| data := base64Audio;
                                        mimeType := "audio/pcm;rate=24000" |} |}]
                 | None => None
                 end;
               interrupted := interrupt |} |}.

(** The session a first click on a new component starts. *)
Definition first_session : LiveSession :=
  {| session_id := 2; session_render := render_of initial |}.

(** The controller after a click and the remote open: Active. *)
Definition live : State :=
  fst (run [Click microphone; RemoteOpen] initial).

(** An audio fragment of three frames, an interruption, and the active
    controller with two chunks scheduled. *)
Definition chunk : LiveServerMessage :=
  fragment None None false (Some "AAAAAAAA"%string) false.

Definition interrupt : LiveServerMessage :=
  fragment None None false None true.

Definition playing : State :=
  fst (run (map (fragment_input first_session) [(chunk, 0); (chunk, 0)]) live).

(** An interruption whose audio payload has three bytes. *)
Definition malformed_interrupt : LiveServerMessage :=
  fragment None None false (Some "AAAA"%string) true.

(** A second start is suspended at the microphone request when the close
    of the first session arrives; it resumes, and the user clicks again. *)
Definition late_close : list Input :=
  [Click microphone; RemoteOpen; Click microphone;
   ClickSuspending; RemoteClose;
   StartResumed (render_of initial) microphone].

(** The samples a frame yields after encoding and decoding. *)
Definition roundtrip {codec : AudioUtils} (inputData : list Q) : Completion (list Q) :=
  match decode (data (pcmBlob inputData)) with
  | Normal bytes =>
      match decodeAudioData bytes 16000%positive 1%nat with
      | Normal audioBuffer => Normal (buffer_samples audioBuffer)
      | Throw e => Throw e
      end
  | Throw e => Throw e
  end.

(** A model API whose every request fails, behind a present key. *)
Definition failing_model : GeminiService.Environment :=
  {| GeminiService.API_KEY := Some "key"%string;
     GeminiService.generateContent := fun _ => Throw (Error "ApiError" "503") |}.


(** A chat panel with the text "Hi" typed in. *)
Definition asking : Chat.State :=
  {| Chat.messages := []; Chat.input := "Hi"; Chat.isLoading := false;
     Chat.useProModel := false; Chat.useSearch := false; Chat.useMaps := false;
     Chat.geoLocation := None; Chat.attachedFile := None |}.

(** ** Ranges *)

(** A signed 16-bit value, and a byte. *)
Definition int16 (v : Z) : Prop := (-32768 <= v <= 32767)%Z.
Definition octet (b : Z) : Prop := (0 <= b < 256)%Z.

(** Text in ASCII, on which [trim] is JavaScript's [trim]. *)
Definition plain (text : string) : Prop :=
  Forall (fun c => (nat_of_ascii c < 128)%nat) (list_ascii_of_string text).

(** A page without an API key, in front of a model that would answer. *)
Definition keyless : GeminiService.Environment :=
  {| GeminiService.API_KEY := None;
     GeminiService.generateContent :=
       fun _ => Normal {| GeminiService.response_text := "Hello";
                          GeminiService.candidates := None |} |}.

(** * Properties *)

(** ** Running handlers *)

Ltac eff :=
  unfold bind, gets, modify, ret, when, call, try_catch, fresh,
    setIsActive, setIsConnecting, setError,
    setUserTranscript, setAiTranscript, setTranscriptHistory;
  cbn.

Lemma bind_eq {A B : Type} {m : Eff A} (k : A -> Eff B) {s s1 : State} {a : A}
      {t1 : list Event} :
  m s = (Normal a, s1, t1) ->
  bind m k s = match k a s1 with (r, s2, t2) => (r, s2, t1 ++ t2) end.
Proof. intros H. unfold bind. rewrite H. reflexivity. Qed.

Lemma bind_throw {A B : Type} {m : Eff A} (k : A -> Eff B) {s s1 : State} {e : Exn}
      {t1 : list Event} :
  m s = (Throw e, s1, t1) -> bind m k s = (Throw e, s1, t1).
Proof. intros H. unfold bind. rewrite H. reflexivity. Qed.

Lemma bind_silent {A B : Type} {m : Eff A} (k : A -> Eff B) {s s1 : State} {a : A} :
  m s = (Normal a, s1, []) -> bind m k s = k a s1.
Proof.
  intros H. unfold bind. rewrite H. destruct (k a s1) as [[r s2] t2]. reflexivity.
Qed.

Lemma for_each_emit {A : Type} (f : A -> Event) (l : list A) (s : State) :
  for_each l (fun x => emit (f x)) s = (Normal tt, s, map f l).
Proof.
  induction l as [|x l IH]; simpl; [reflexivity|].
  unfold bind, emit at 1. rewrite IH. reflexivity.
Qed.

(** ** Teardown *)

Lemma stopConversation_eq (s : State) :
  stopConversation s = (Normal tt, stopped s, releases s).
Proof.
  unfold stopConversation, setIsActive, setIsConnecting, close_context.
  rewrite bind_silent with (a := sessionPromiseRef s) (s1 := s) by reflexivity.
  rewrite (@bind_eq _ _ _ _ s (with_sessionPromiseRef None s) tt
             (held (fun session => [SessionClose (session_id session)]) (sessionPromiseRef s)))
    by (destruct s as [? ? ? ? ? ? [x|]]; reflexivity).
  set (s1 := with_sessionPromiseRef None s).
  rewrite bind_silent with (a := streamRef s) (s1 := s1) by reflexivity.
  rewrite (@bind_eq _ _ _ _ s1 (with_streamRef None s1) tt
             (held (fun stream => map TrackStop (stream_tracks stream)) (streamRef s))).
  2:{ destruct s as [? ? ? ? ? ? ? [x|]]; [|reflexivity].
      cbn [streamRef held]. rewrite (bind_eq _ (for_each_emit TrackStop _ _)).
      cbn. now rewrite app_nil_r. }
  set (s2 := with_streamRef None s1).
  rewrite bind_silent with (a := scriptProcessorRef s) (s1 := s2) by reflexivity.
  rewrite (@bind_eq _ _ _ _ s2 (with_scriptProcessorRef None s2) tt
             (held (fun node => [NodeDisconnect node]) (scriptProcessorRef s)))
    by (destruct s as [? ? ? ? ? ? ? ? ? ? [x|]]; reflexivity).
  set (s3 := with_scriptProcessorRef None s2).
  rewrite bind_silent with (a := mediaStreamSourceRef s) (s1 := s3) by reflexivity.
  rewrite (@bind_eq _ _ _ _ s3 (with_mediaStreamSourceRef None s3) tt
             (held (fun node => [NodeDisconnect node]) (mediaStreamSourceRef s)))
    by (destruct s as [? ? ? ? ? ? ? ? ? ? ? [x|]]; reflexivity).
  set (s4 := with_mediaStreamSourceRef None s3).
  rewrite (@bind_eq _ _ _ _ s4
             (with_inputAudioContextRef (after_close (inputAudioContextRef s)) s4) tt
             (held context_release (inputAudioContextRef s)))
    by (destruct s as [? ? ? ? ? ? ? ? [[? ? []]|]]; reflexivity).
  set (s5 := with_inputAudioContextRef _ s4).
  rewrite (@bind_eq _ _ _ _ s5
             (with_outputAudioContextRef (after_close (outputAudioContextRef s)) s5) tt
             (held context_release (outputAudioContextRef s)))
    by (destruct s as [? ? ? ? ? ? ? ? ? [[? ? []]|]]; reflexivity).
  set (s6 := with_outputAudioContextRef _ s5).
  rewrite bind_silent with (a := audioSourcesRef s) (s1 := s6) by reflexivity.
  rewrite (bind_eq _ (for_each_emit (fun source => SourceStop (source_id source)) _ _)).
  unfold bind, modify, releases. cbn. rewrite !app_nil_r. reflexivity.
Qed.

Lemma stopped_idle (s : State) : idle (stopped s).
Proof.
  unfold idle, stopped, context_released, after_close; cbn.
  repeat split;
    [ destruct (inputAudioContextRef s) as [[? ? []]|]
    | destruct (outputAudioContextRef s) as [[? ? []]|] ]; cbn; auto.
Qed.

Lemma idle_releases (s : State) : idle s -> releases s = [].
Proof.
  unfold idle, releases, context_released.
  intros (-> & -> & -> & -> & Hi & Ho & -> & _).
  destruct (inputAudioContextRef s) as [ci|], (outputAudioContextRef s) as [co|]; cbn;
    unfold context_release; rewrite ?Hi, ?Ho; reflexivity.
Qed.

Lemma stopped_stopped (s : State) : stopped (stopped s) = stopped s.
Proof.
  unfold stopped, after_close; cbn.
  destruct (inputAudioContextRef s) as [[? ? []]|],
           (outputAudioContextRef s) as [[? ? []]|]; reflexivity.
Qed.

(** C3. From every state of the controller, calling [stopConversation]
    twice ends in the state one call ends in: the first call returns
    normally, leaves the controller idle (no session, stream or node held,
    every context cell released, no scheduled source, cursor zero, neither
    active nor connecting) and performs exactly one release per resource
    held; the second call changes nothing and performs no release. *)
Theorem stopConversation_idempotent (s : State) :
  exists s1 : State,
    stopConversation s = (Normal tt, s1, releases s) /\
    idle s1 /\
    stopConversation s1 = (Normal tt, s1, []).
Proof.
  exists (stopped s). split; [apply stopConversation_eq|]. split; [apply stopped_idle|].
  rewrite stopConversation_eq, stopped_stopped, (idle_releases (stopped_idle s)).
  reflexivity.
Qed.

(** ** Fragments *)

Lemma with_audioSourcesRef_same s : with_audioSourcesRef (audioSourcesRef s) s = s.
Proof. destruct s; reflexivity. Qed.

Lemma flush_loop_eq (l : list AudioBufferSourceNode) (s : State) :
  flush_loop l s =
  (Normal tt,
   with_audioSourcesRef
     (fold_left (fun acc source => set_delete (source_id source) acc) l (audioSourcesRef s)) s,
   map (fun source => SourceStop (source_id source)) l).
Proof.
  unfold flush_loop. revert s. induction l as [|x l IH]; intros s; cbn [for_each fold_left map].
  - unfold ret. now rewrite with_audioSourcesRef_same.
  - unfold bind at 1. unfold bind at 1. unfold emit, modify. rewrite IH. reflexivity.
Qed.

Lemma delete_all_subset (l acc : list AudioBufferSourceNode) :
  (forall x, In x acc -> In x l) ->
  fold_left (fun acc source => set_delete (source_id source) acc) l acc = [].
Proof.
  revert acc. induction l as [|y l IH]; intros acc H; cbn.
  - destruct acc as [|x acc]; [reflexivity|]. destruct (H x (or_introl eq_refl)).
  - apply IH. intros x Hx. unfold set_delete in Hx. apply filter_In in Hx as [Hx Hne].
    destruct (H x Hx) as [->|]; [|assumption].
    rewrite Nat.eqb_refl in Hne. discriminate.
Qed.

Lemma transcribed_refs render message s :
  let s1 := transcribed render message s in
  outputAudioContextRef s1 = outputAudioContextRef s /\
  audioSourcesRef s1 = audioSourcesRef s /\
  nextStartTimeRef s1 = nextStartTimeRef s /\
  nextObjectId s1 = nextObjectId s.
Proof.
  unfold transcribed.
  destruct (outputTranscription_of message), (inputTranscription_of message),
    (turnComplete_of message); cbn; auto.
Qed.

Lemma interruption_steps message s :
  when (interrupted_of message)
    (bind (gets audioSourcesRef) (fun sources =>
     bind (for_each sources (fun source =>
             bind (emit (SourceStop (source_id source)))
                  (fun _ => modify (fun s => with_audioSourcesRef
                     (set_delete (source_id source) (audioSourcesRef s)) s))))
          (fun _ => modify (with_nextStartTimeRef 0)))) s =
  interruption message s [].
Proof.
  unfold interruption, when. destruct (interrupted_of message); [|reflexivity].
  unfold bind at 1. unfold gets at 1. unfold bind at 1.
  fold (flush_loop (audioSourcesRef s)). rewrite flush_loop_eq.
  rewrite delete_all_subset by auto.
  unfold modify, flushed, flush_stops. cbn. rewrite app_nil_r. destruct s; reflexivity.
Qed.


Lemma interruption_after message s t :
  match interruption message s [] with (r, s2, t2) => (r, s2, t ++ t2) end =
  interruption message s t.
Proof.
  unfold interruption. destruct (interrupted_of message); cbn; rewrite ?app_nil_r; reflexivity.
Qed.

Lemma enqueue_steps_eq {codec : AudioUtils} (base64Audio : string) (currentTime : Q)
      (s : State) :
  enqueue_steps base64Audio currentTime s =
  match decode base64Audio with
  | Normal bytes =>
      match decodeAudioData bytes 24000%positive 1%nat with
      | Normal audioBuffer =>
          (Normal tt, enqueued audioBuffer currentTime s,
           [SourceStart (new_source audioBuffer s) (Qmax (nextStartTimeRef s) currentTime)])
      | Throw e => (Throw e, with_nextStartTimeRef (Qmax (nextStartTimeRef s) currentTime) s, [])
      end
  | Throw e => (Throw e, with_nextStartTimeRef (Qmax (nextStartTimeRef s) currentTime) s, [])
  end.
Proof.
  unfold enqueue_steps. unfold bind at 1. unfold modify at 1. unfold bind at 1. unfold call at 1.
  destruct (decode base64Audio) as [bytes|e]; [|reflexivity].
  unfold bind at 1. unfold call at 1.
  destruct (decodeAudioData bytes 24000 1) as [audioBuffer|e]; [|reflexivity].
  destruct s; reflexivity.
Qed.


Lemma handleMessage_eq {codec : AudioUtils} render message currentTime s :
  handleMessage render message currentTime s =
  let s1 := transcribed render message s in
  match decoded_audio message, outputAudioContextRef s with
  | Some (Throw e), Some _ =>
      (Throw e, with_nextStartTimeRef (Qmax (nextStartTimeRef s1) currentTime) s1, [])
  | Some (Normal audioBuffer), Some _ =>
      interruption message (enqueued audioBuffer currentTime s1)
        [SourceStart (new_source audioBuffer s1) (Qmax (nextStartTimeRef s1) currentTime)]
  | _, _ => interruption message s1 []
  end.
Proof.
  unfold handleMessage.
  rewrite bind_silent with (a := tt)
    (s1 := match outputTranscription_of message with
           | Some text => with_aiTranscript (aiTranscript s ++ text) s
           | None => s
           end)
    by (destruct (outputTranscription_of message); reflexivity).
  set (sA := match outputTranscription_of message with Some _ => _ | None => _ end).
  rewrite bind_silent with (a := tt)
    (s1 := match inputTranscription_of message with
           | Some text => with_userTranscript (userTranscript sA ++ text) sA
           | None => sA
           end)
    by (destruct (inputTranscription_of message); reflexivity).
  set (sB := match inputTranscription_of message with Some _ => _ | None => _ end).
  rewrite bind_silent with (a := tt) (s1 := transcribed render message s)
    by (unfold transcribed; fold sA; fold sB; destruct (turnComplete_of message); reflexivity).
  clearbody sB. clear sB sA.
  destruct (transcribed_refs render message s) as (Hctx & _).
  cbv zeta. set (s1 := transcribed render message s) in *. clearbody s1.
  rewrite bind_silent with (a := outputAudioContextRef s1) (s1 := s1) by reflexivity.
  rewrite Hctx.
  destruct (outputAudioContextRef s) as [context|].
  - unfold decoded_audio.
    destruct (base64Audio_of message) as [base64Audio|];
      [destruct (truthy base64Audio) eqn:Htruthy|].
    + unfold when at 1. fold (enqueue_steps base64Audio currentTime).
      pose proof (enqueue_steps_eq base64Audio currentTime s1) as E.
      destruct (decode base64Audio) as [bytes|e];
        [destruct (decodeAudioData bytes 24000 1) as [audioBuffer|e]|].
      * rewrite (bind_eq _ E), interruption_steps. apply interruption_after.
      * apply (bind_throw _ E).
      * apply (bind_throw _ E).
    + rewrite bind_silent with (a := tt) (s1 := s1) by reflexivity.
      apply interruption_steps.
    + rewrite bind_silent with (a := tt) (s1 := s1) by reflexivity.
      apply interruption_steps.
  - rewrite bind_silent with (a := tt) (s1 := s1)
      by (destruct (base64Audio_of message); reflexivity).
    rewrite interruption_steps. destruct (decoded_audio message) as [[|]|]; reflexivity.
Qed.

(** ** What every history of the component maintains *)

Lemma Qmax_0_l (t : Q) : 0 <= t -> Qmax 0 t == t.
Proof. apply Q.max_r. Qed.

Lemma same_controller_refl s : same_controller s s.
Proof. unfold same_controller. tauto. Qed.

Lemma transcribed_same render message s : same_controller s (transcribed render message s).
Proof.
  unfold transcribed, same_controller.
  destruct (outputTranscription_of message), (inputTranscription_of message),
    (turnComplete_of message); cbn; tauto.
Qed.

Lemma handleMessage_same {codec : AudioUtils} render message currentTime s :
  same_controller s (snd (fst (handleMessage render message currentTime s))).
Proof.
  rewrite handleMessage_eq. cbv zeta.
  pose proof (transcribed_same render message s) as H.
  set (s1 := transcribed render message s) in *. clearbody s1.
  unfold interruption.
  destruct (decoded_audio message) as [[audioBuffer|e]|], (outputAudioContextRef s),
    (interrupted_of message); cbn; exact H.
Qed.

Lemma onError_eq (s : State) :
  onError s =
  (Normal tt, stopped (with_error (Some connection_text) s),
   ConsoleError "Live session error:" :: releases s).
Proof.
  unfold onError.
  rewrite (@bind_eq _ _ _ _ s s tt [ConsoleError "Live session error:"]) by reflexivity.
  unfold setError.
  rewrite bind_silent with (a := tt) (s1 := with_error (Some connection_text) s)
    by reflexivity.
  rewrite stopConversation_eq. reflexivity.
Qed.

Lemma toggleConversation_eq (platform : Platform) (s : State) :
  toggleConversation platform s =
  if isActive s || isConnecting s
  then stopConversation s
  else startConversation (render_of s) platform s.
Proof.
  unfold toggleConversation.
  rewrite bind_silent with (a := isActive s) (s1 := s) by reflexivity.
  rewrite bind_silent with (a := isConnecting s) (s1 := s) by reflexivity.
  rewrite bind_silent with (a := render_of s) (s1 := s) by reflexivity.
  destruct (isActive s || isConnecting s); reflexivity.
Qed.

Lemma toggleConversation_begin_eq (s : State) :
  toggleConversation_begin s =
  if isActive s || isConnecting s
  then stopConversation s
  else startConversation_begin s.
Proof.
  unfold toggleConversation_begin.
  rewrite bind_silent with (a := isActive s) (s1 := s) by reflexivity.
  rewrite bind_silent with (a := isConnecting s) (s1 := s) by reflexivity.
  destruct (isActive s || isConnecting s); reflexivity.
Qed.

(** The start with nothing in the gap is its two halves in sequence. *)
Lemma startConversation_halves (render : Render) (platform : Platform) (s : State) :
  startConversation render platform s =
  bind startConversation_begin (fun _ => startConversation_resume render platform) s.
Proof.
  destruct s as [c a e u ai h sp st ic oc pr ms nx srcs nid].
  destruct platform as [[stream|e1] [[]|e2] [[]|e3]]; reflexivity.
Qed.

Lemma stopped_contexts_open (s : State) : contexts_open s -> contexts_open (stopped s).
Proof.
  unfold contexts_open, stopped, after_close, context_open. cbn. intros [Hi Ho].
  split;
    [ destruct (inputAudioContextRef s) as [[? ? []]|]
    | destruct (outputAudioContextRef s) as [[? ? []]|] ]; cbn in *; auto.
Qed.

Lemma startConversation_resume_contexts_open render platform (s : State) :
  contexts_open s ->
  contexts_open (snd (fst (startConversation_resume render platform s))).
Proof.
  intros [Hi Ho]. destruct s as [c a e u ai h sp st ic oc pr ms nx srcs nid].
  unfold contexts_open in *. cbn in Hi, Ho.
  destruct platform as [[stream|e1] [[]|e2] [[]|e3]]; cbn; repeat split; auto; discriminate.
Qed.

Lemma handle_contexts_open {codec : AudioUtils} (i : Input) (s : State) :
  contexts_open s -> contexts_open (snd (fst (handle i s))).
Proof.
  intros H.
  destruct i as [platform| |render platform| |session message currentTime| | |inputData|id|];
    cbn [handle].
  - rewrite toggleConversation_eq. destruct (isActive s || isConnecting s).
    + rewrite stopConversation_eq. now apply stopped_contexts_open.
    + rewrite startConversation_halves. unfold bind at 1.
      change (startConversation_begin s)
        with (Normal tt, with_error None (with_isConnecting true s), [GetUserMedia]).
      cbv beta iota.
      pose proof (@startConversation_resume_contexts_open (render_of s) platform
                    (with_error None (with_isConnecting true s)) H) as R.
      destruct (startConversation_resume (render_of s) platform
                  (with_error None (with_isConnecting true s))) as [[r s1] t1].
      exact R.
  - rewrite toggleConversation_begin_eq. destruct (isActive s || isConnecting s).
    + rewrite stopConversation_eq. now apply stopped_contexts_open.
    + exact H.
  - now apply startConversation_resume_contexts_open.
  - destruct s as [c a e u ai h sp st ic oc pr ms nx srcs nid].
    unfold contexts_open in *. cbn in *. destruct st, ic; cbn; exact H.
  - pose proof (handleMessage_same (session_render session) message currentTime s)
      as (_ & _ & _ & _ & _ & Hi & Ho & _).
    unfold contexts_open. now rewrite Hi, Ho.
  - rewrite onError_eq. now apply stopped_contexts_open.
  - unfold onClose. rewrite stopConversation_eq. now apply stopped_contexts_open.
  - unfold onaudioprocess.
    rewrite bind_silent with (a := sessionPromiseRef s) (s1 := s) by reflexivity.
    destruct (sessionPromiseRef s); exact H.
  - exact H.
  - unfold unmount. rewrite stopConversation_eq. now apply stopped_contexts_open.
Qed.

Lemma run_contexts_open {codec : AudioUtils} (inputs : list Input) (s : State) :
  contexts_open s -> contexts_open (fst (run inputs s)).
Proof.
  revert s. induction inputs as [|i inputs IH]; intros s H; cbn [run]; [exact H|].
  pose proof (handle_contexts_open i H) as H1.
  destruct (handle i s) as [[r s1] t1]. cbn [fst snd] in H1.
  specialize (IH s1 H1). destruct (run inputs s1) as [s2 t2]. exact IH.
Qed.

Lemma initial_contexts_open : contexts_open initial.
Proof. unfold contexts_open. cbn. auto. Qed.

(** ** The playback schedule *)

Lemma scheduled_app t1 t2 : scheduled (t1 ++ t2) = scheduled t1 ++ scheduled t2.
Proof.
  induction t1 as [|e t1 IH]; [reflexivity|].
  destruct e; cbn; rewrite ?IH; reflexivity.
Qed.

(** C2. Audio-bearing fragments delivered to a controller that holds an
    output context, none of them interrupting: every fragment schedules
    one chunk, and each chunk starts no earlier than the playback time at
    its delivery and no earlier than the end of the chunk scheduled
    before it (the cursor, for the first). *)
Theorem chunks_play_sequentially {codec : AudioUtils} (session : LiveSession)
        (fragments : list (LiveServerMessage * Q)) (s : State) :
  outputAudioContextRef s <> None ->
  Forall (fun f => playable (fst f) /\ interrupted_of (fst f) = false) fragments ->
  on_schedule (nextStartTimeRef s) (map snd fragments)
    (scheduled (snd (run (map (fragment_input session) fragments) s))).
Proof.
  intros Hctx Hall. revert s Hctx.
  induction Hall as [|[message currentTime] fragments [[audioBuffer Haudio] Hint] _ IH];
    intros s Hctx; [exact I|].
  cbn [fst snd] in Haudio, Hint.
  cbn [map run handle fragment_input fst snd].
  rewrite handleMessage_eq. cbv zeta. rewrite Haudio.
  destruct (outputAudioContextRef s) as [context|] eqn:Hs; [|contradiction].
  unfold interruption. rewrite Hint.
  set (s1 := transcribed (session_render session) message s).
  destruct (transcribed_refs (session_render session) message s) as (Hc & _ & Hn & _).
  fold s1 in Hc, Hn.
  specialize (IH (enqueued audioBuffer currentTime s1)).
  destruct (run (map (fragment_input session) fragments) (enqueued audioBuffer currentTime s1))
    as [s2 t2].
  cbn [snd app scheduled on_schedule source_buffer new_source].
  rewrite Hn. split; [apply Q.le_max_r|]. split; [apply Q.le_max_l|].
  cbn in IH. rewrite Hn in IH. apply IH. rewrite Hc, Hs. discriminate.
Qed.

(** Three chunks delivered to the active controller at times 0, 0 and 1. *)
Lemma chunks_play_sequentially_witness :
  outputAudioContextRef live <> None /\
  on_schedule 0 [0; 0; 1]
    (scheduled (snd (run (map (fragment_input first_session)
                              [(chunk, 0); (chunk, 0); (chunk, 1)]) live))).
Proof.
  assert (P : playable chunk /\ interrupted_of chunk = false).
  { split; [|reflexivity]. eexists. vm_compute. reflexivity. }
  assert (C : outputAudioContextRef live <> None) by (vm_compute; discriminate).
  split; [exact C|].
  apply (@chunks_play_sequentially specAudioUtils first_session [(chunk, 0); (chunk, 0); (chunk, 1)] live C).
  repeat constructor; exact (proj1 P).
Defined.

(** ** Transcript *)

(** C1. A first session on a new component: the delta "Hello" is
    accumulated, an audio fragment follows, then turn-complete. The
    handler registered at the start still binds the transcripts of that
    render, so the committed Turn is empty on both sides; the
    accumulators are reset. *)
Theorem turn_commit_reads_the_render_of_the_start :
  let s1 := fst (run [RemoteMessage first_session (fragment (Some "Hello"%string) None false None false) 0] live) in
  let s2 := fst (run [RemoteMessage first_session (fragment None None false (Some "AAAAAAAA"%string) false) 0;
                      RemoteMessage first_session (fragment None None true None false) 0] s1) in
  sessionPromiseRef live = Some first_session /\
  aiTranscript s1 = "Hello"%string /\
  transcriptHistory s2 = [{| user := ""; ai := "" |}] /\
  aiTranscript s2 = ""%string.
Proof. vm_compute. repeat split; reflexivity. Qed.

Lemma transcribed_commit (render : Render) (message : LiveServerMessage) (s : State) :
  turnComplete_of message = true ->
  transcriptHistory (transcribed render message s) =
    transcriptHistory s ++
    [{| user := render_userTranscript render; ai := render_aiTranscript render |}] /\
  userTranscript (transcribed render message s) = ""%string /\
  aiTranscript (transcribed render message s) = ""%string.
Proof.
  intros H. unfold transcribed. rewrite H.
  destruct (outputTranscription_of message), (inputTranscription_of message); cbn; auto.
Qed.

(** X1. Whatever the state and the fragment, a turn-complete flag makes
    [handleMessage] append exactly one Turn, whose texts are the
    transcripts bound by the render that created the handler, and reset
    both accumulators. *)
Theorem turn_commit_appends_render {codec : AudioUtils} (render : Render)
        (message : LiveServerMessage) (currentTime : Q) (s : State) :
  turnComplete_of message = true ->
  let s1 := snd (fst (handleMessage render message currentTime s)) in
  transcriptHistory s1 =
    transcriptHistory s ++
    [{| user := render_userTranscript render; ai := render_aiTranscript render |}] /\
  userTranscript s1 = ""%string /\
  aiTranscript s1 = ""%string.
Proof.
  intros H. cbv zeta. rewrite handleMessage_eq. cbv zeta.
  pose proof (@transcribed_commit render message s H) as T.
  set (s1 := transcribed render message s) in *. clearbody s1.
  unfold interruption.
  destruct (decoded_audio message) as [[audioBuffer|e]|], (outputAudioContextRef s),
    (interrupted_of message); exact T.
Qed.

Lemma turn_commit_appends_render_witness :
  transcriptHistory
    (snd (fst (handleMessage (session_render first_session)
                             (fragment (Some "Hello"%string) None true None false) 0 live))) =
  [{| user := ""; ai := "" |}].
Proof.
  exact (proj1 (@turn_commit_appends_render specAudioUtils (session_render first_session)
                  (fragment (Some "Hello"%string) None true None false) 0 live eq_refl)).
Defined.


(** ** Interruption *)

Lemma set_add_In (source x : AudioBufferSourceNode) (l : list AudioBufferSourceNode) :
  In x l -> In x (set_add source l).
Proof.
  unfold set_add. destruct (existsb _ l); [auto|]. intros H. apply in_or_app. now left.
Qed.

Lemma set_add_id (source : AudioBufferSourceNode) (l : list AudioBufferSourceNode) :
  In (source_id source) (map source_id (set_add source l)).
Proof.
  unfold set_add. destruct (existsb _ l) eqn:E.
  - apply existsb_exists in E as (x & Hx & Hid). apply Nat.eqb_eq in Hid.
    rewrite <- Hid. now apply in_map.
  - rewrite map_app. apply in_or_app. right. now left.
Qed.

Lemma flush_stops_In (s : State) (id : nat) :
  In id (map source_id (audioSourcesRef s)) -> In (SourceStop id) (flush_stops s).
Proof.
  unfold flush_stops. intros H. apply in_map_iff in H as (x & <- & Hx).
  apply in_map_iff. now exists x.
Qed.

(** C4. Two chunks are scheduled when an interruption arrives whose
    audio payload has three bytes: the decoder throws before the
    interruption steps, so nothing is stopped, both sources stay in the
    active set and the cursor is the playback time, not zero. *)
Theorem malformed_interruption_does_not_flush :
  List.length (audioSourcesRef playing) = 2%nat /\
  handleMessage (session_render first_session) malformed_interrupt 1 playing =
  (Throw (Error "DecodeError" "byte length is not a multiple of 2"),
   with_nextStartTimeRef 1 playing, []) /\
  audioSourcesRef (with_nextStartTimeRef 1 playing) = audioSourcesRef playing.
Proof. vm_compute. repeat split; reflexivity. Qed.

(** X4. A fragment with the interruption flag, whose audio payload (if
    it has one) decodes, whatever the number of scheduled sources: the
    handler returns normally, every source of the active set is stopped,
    as is the source the fragment itself may just have started; the
    active set is empty and the cursor is zero afterwards, so that the
    next chunk enqueued at a time [time >= 0] starts at [time]. *)
Theorem interruption_flushes {codec : AudioUtils} (render : Render)
        (message : LiveServerMessage) (currentTime : Q) (s : State) :
  interrupted_of message = true ->
  (forall e, decoded_audio message <> Some (Throw e)) ->
  exists (s1 : State) (trace : list Event),
    handleMessage render message currentTime s = (Normal tt, s1, trace) /\
    audioSourcesRef s1 = [] /\
    nextStartTimeRef s1 = 0 /\
    (forall source, In source (audioSourcesRef s) ->
                    In (SourceStop (source_id source)) trace) /\
    (forall source start, In (SourceStart source start) trace ->
                          In (SourceStop (source_id source)) trace) /\
    (forall render' next time audioBuffer,
        outputAudioContextRef s <> None ->
        decoded_audio next = Some (Normal audioBuffer) ->
        0 <= time ->
        exists source start rest,
          snd (handleMessage render' next time s1) = SourceStart source start :: rest /\
          start == time).
Proof.
  intros Hint Hok.
  assert (Next : forall s1 : State,
             nextStartTimeRef s1 = 0 -> outputAudioContextRef s1 = outputAudioContextRef s ->
             forall render' next time audioBuffer,
               outputAudioContextRef s <> None ->
               decoded_audio next = Some (Normal audioBuffer) ->
               0 <= time ->
               exists source start rest,
                 snd (handleMessage render' next time s1) = SourceStart source start :: rest /\
                 start == time).
  { intros s1 Hn Hc render' next time audioBuffer Hctx Haudio Htime.
    rewrite handleMessage_eq. cbv zeta. rewrite Haudio, Hc.
    destruct (outputAudioContextRef s); [|contradiction].
    destruct (transcribed_refs render' next s1) as (_ & _ & Hn' & _).
    rewrite Hn', Hn. unfold interruption.
    destruct (interrupted_of next); cbn [snd app];
      do 3 eexists; (split; [reflexivity|]); now apply Qmax_0_l. }
  rewrite handleMessage_eq. cbv zeta. unfold interruption. rewrite Hint.
  destruct (transcribed_refs render message s) as (Hc & Hsrc & _).
  set (s1 := transcribed render message s) in *. clearbody s1.
  destruct (decoded_audio message) as [[audioBuffer|e]|] eqn:Haudio;
    [destruct (outputAudioContextRef s) as [context|] eqn:Hs| |].
  - do 2 eexists. split; [reflexivity|]. split; [reflexivity|]. split; [reflexivity|].
    split; [|split].
    + intros source Hin. right. apply flush_stops_In. cbn.
      apply in_map, set_add_In. now rewrite Hsrc.
    + intros source start [H|H].
      * inversion H; subst. right. apply flush_stops_In.
        exact (set_add_id (new_source audioBuffer s1) (audioSourcesRef s1)).
      * unfold flush_stops in H. apply in_map_iff in H as (x & Hx & _). discriminate.
    + apply Next; [reflexivity|]. cbn. exact Hc.
  - do 2 eexists. split; [reflexivity|]. split; [reflexivity|]. split; [reflexivity|].
    split; [|split].
    + intros source Hin. apply flush_stops_In, in_map. now rewrite Hsrc.
    + intros source start H. unfold flush_stops in H. cbn in H.
      apply in_map_iff in H as (x & Hx & _). discriminate.
    + apply Next; [reflexivity|]. cbn. exact Hc.
  - elim (Hok e eq_refl).
  - do 2 eexists. split; [reflexivity|]. split; [reflexivity|]. split; [reflexivity|].
    split; [|split].
    + intros source Hin. apply flush_stops_In, in_map. now rewrite Hsrc.
    + intros source start H. unfold flush_stops in H.
      apply in_map_iff in H as (x & Hx & _). discriminate.
    + apply Next; [reflexivity|]. cbn. exact Hc.
Qed.

(** An interruption while two chunks are scheduled. *)
Lemma interruption_flushes_witness :
  List.length (audioSourcesRef playing) = 2%nat /\
  exists (s1 : State) (trace : list Event),
    handleMessage (session_render first_session) interrupt 1 playing = (Normal tt, s1, trace) /\
    audioSourcesRef s1 = [] /\ nextStartTimeRef s1 = 0.
Proof.
  split; [vm_compute; reflexivity|].
  destruct (@interruption_flushes specAudioUtils (session_render first_session) interrupt 1 playing eq_refl)
    as (s1 & trace & H & Hs & Hn & _).
  - intros e H. vm_compute in H. discriminate.
  - exists s1, trace. auto.
Defined.

(** ** Fragments after the teardown *)

Lemma context_open_after_close (ref : option AudioContext) :
  context_open ref -> after_close ref = None.
Proof.
  unfold context_open, after_close. destruct ref as [[? ? []]|]; cbn; congruence.
Qed.

Lemma transcribed_idle render message s : idle s -> idle (transcribed render message s).
Proof.
  unfold idle. intros H.
  destruct (transcribed_same render message s) as (-> & -> & _ & -> & -> & -> & -> & -> & ->).
  destruct (transcribed_refs render message s) as (_ & -> & -> & _).
  exact H.
Qed.

Lemma flushed_idle s : idle s -> flushed s = s.
Proof.
  unfold idle, flushed. intros (_ & _ & _ & _ & _ & _ & Hs & Hn & _).
  destruct s. cbn in *. now subst.
Qed.

(** C5, amended. After any history of the component, a fragment handled
    once [stopConversation] has run is handled without fault and makes no
    call: nothing is scheduled or stopped, the active set stays empty,
    the cursor stays zero and the session state and resources stay as
    the teardown left them. Its transcript steps still run: the state
    after it is [transcribed], so deltas are appended and a
    turn-complete flag commits a Turn. *)
Theorem fragment_after_stop {codec : AudioUtils} (inputs : list Input) (render : Render)
        (message : LiveServerMessage) (currentTime : Q) :
  exists (s1 : State) (t1 : list Event),
    stopConversation (fst (run inputs initial)) = (Normal tt, s1, t1) /\
    handleMessage render message currentTime s1 =
      (Normal tt, transcribed render message s1, []) /\
    idle (transcribed render message s1) /\
    same_controller s1 (transcribed render message s1).
Proof.
  pose proof (run_contexts_open inputs initial_contexts_open) as (_ & Hout).
  set (s := fst (run inputs initial)) in *. clearbody s.
  exists (stopped s), (releases s). split; [apply stopConversation_eq|].
  pose proof (transcribed_idle render message (stopped_idle s)) as Hidle.
  split; [|split; [exact Hidle | apply transcribed_same]].
  rewrite handleMessage_eq. cbv zeta.
  assert (outputAudioContextRef (stopped s) = None) as ->
      by (cbn; now apply context_open_after_close).
  unfold interruption.
  assert (E : flush_stops (transcribed render message (stopped s)) = []).
  { unfold flush_stops. destruct Hidle as (_ & _ & _ & _ & _ & _ & -> & _). reflexivity. }
  destruct (decoded_audio message) as [[audioBuffer|e]|], (interrupted_of message);
    rewrite ?E, ?(flushed_idle Hidle); reflexivity.
Qed.

(** C5 as stated fails: after the teardown the delta "Hello" is still
    accumulated and a turn-complete signal still commits a Turn. *)
Lemma fragment_after_stop_is_transcribed :
  let s1 := fst (run [Click microphone; RemoteOpen; Click microphone] initial) in
  let s2 := fst (run [RemoteMessage first_session
                        (fragment (Some "Hello"%string) None false None false) 0] s1) in
  let s3 := fst (run [RemoteMessage first_session
                        (fragment None None true None false) 0] s2) in
  idle s1 /\
  aiTranscript s1 = ""%string /\ aiTranscript s2 = "Hello"%string /\
  transcriptHistory s1 = [] /\ transcriptHistory s3 = [{| user := ""; ai := "" |}].
Proof. vm_compute. repeat split; reflexivity. Qed.

(** ** Malformed audio *)

(** C7. An active session receives a fragment whose payload has three
    bytes: the handler throws the decoder's error, which nothing
    catches; its trace is empty (no [console.error]); the cursor has
    been raised to the playback time and the interruption steps of the
    fragment are skipped. The session itself is left as it was. *)
Theorem malformed_audio_is_not_caught :
  handleMessage (session_render first_session)
                (fragment None None false (Some "AAAA"%string) true) 1 live =
  (Throw (Error "DecodeError" "byte length is not a multiple of 2"),
   with_nextStartTimeRef 1 live, []).
Proof. vm_compute. reflexivity. Qed.

Lemma decode_failure_rejects {codec : AudioUtils} (render : Render)
      (message : LiveServerMessage) (currentTime : Q) (s : State) (e : Exn) :
  decoded_audio message = Some (Throw e) ->
  outputAudioContextRef s <> None ->
  handleMessage render message currentTime s =
  (Throw e,
   with_nextStartTimeRef (Qmax (nextStartTimeRef s) currentTime)
     (transcribed render message s), []).
Proof.
  intros Haudio Hctx. rewrite handleMessage_eq. cbv zeta. rewrite Haudio.
  destruct (outputAudioContextRef s); [|contradiction].
  destruct (transcribed_refs render message s) as (_ & _ & -> & _). reflexivity.
Qed.

(** X2. A fragment whose payload fails to decode, handled while an
    output context is held: the handler throws the decoder's error and
    makes no call (nothing is logged, scheduled or stopped); the
    session, its resources, the status flags and the active set are as
    before, and the cursor is the maximum of the cursor and the playback
    time. *)
Theorem decode_failure_leaves_session {codec : AudioUtils} (render : Render)
        (message : LiveServerMessage) (currentTime : Q) (s : State) (e : Exn) :
  decoded_audio message = Some (Throw e) ->
  outputAudioContextRef s <> None ->
  exists s1 : State,
    handleMessage render message currentTime s = (Throw e, s1, []) /\
    same_controller s s1 /\
    audioSourcesRef s1 = audioSourcesRef s /\
    nextStartTimeRef s1 = Qmax (nextStartTimeRef s) currentTime.
Proof.
  intros Haudio Hctx. eexists. split; [now apply decode_failure_rejects|].
  destruct (transcribed_refs render message s) as (_ & Hsrc & _).
  split; [apply (transcribed_same render message s)|]. split; [exact Hsrc|reflexivity].
Qed.

Lemma decode_failure_leaves_session_witness :
  exists s1 : State,
    handleMessage (session_render first_session)
                  (fragment None None false (Some "AAAA"%string) false) 1 live =
      (Throw (Error "DecodeError" "byte length is not a multiple of 2"), s1, []) /\
    isActive s1 = true /\ audioSourcesRef s1 = [].
Proof.
  destruct (@decode_failure_leaves_session specAudioUtils (session_render first_session)
              (fragment None None false (Some "AAAA"%string) false) 1 live
              (Error "DecodeError" "byte length is not a multiple of 2") eq_refl)
    as (s1 & H & (_ & Ha & _) & Hs & _).
  - vm_compute. discriminate.
  - exists s1. split; [exact H|]. split; [exact Ha | exact Hs].
Defined.


(** ** Failure paths *)

Lemma releases_no_start (s : State) :
  Forall (fun e => match e with
                   | GetUserMedia | NewAudioContext _ _ | LiveConnect _ => False
                   | _ => True
                   end) (releases s).
Proof.
  unfold releases. repeat (apply Forall_app; split).
  - destruct (sessionPromiseRef s); cbn; auto.
  - destruct (streamRef s) as [st|]; cbn; [|constructor].
    induction (stream_tracks st); cbn; auto.
  - destruct (scriptProcessorRef s); cbn; auto.
  - destruct (mediaStreamSourceRef s); cbn; auto.
  - destruct (inputAudioContextRef s) as [[? ? []]|]; cbn; auto.
  - destruct (outputAudioContextRef s) as [[? ? []]|]; cbn; auto.
  - induction (audioSourcesRef s); cbn; auto.
Qed.

(** C6, amended. A transport error logs, sets the status text "A
    connection error occurred." and runs the whole teardown; a remote
    close runs the whole teardown and leaves the status text as it was;
    neither requests the microphone, builds a context or connects a
    session again. A start that fails at the microphone request logs,
    sets the microphone status text and clears the connecting flag; it
    has acquired nothing (the controller holds what it held before, so
    an idle controller stays idle) and connects no session. *)
Theorem failure_paths (s : State) :
  (exists s1 trace,
      onError s = (Normal tt, s1, ConsoleError "Live session error:" :: trace) /\
      error s1 = Some connection_text /\ idle s1 /\
      trace = releases s /\ starts_nothing trace) /\
  (exists s1 trace,
      onClose s = (Normal tt, s1, trace) /\
      error s1 = error s /\ idle s1 /\
      trace = releases s /\ starts_nothing trace) /\
  (forall (render : Render) (platform : Platform) (e : Exn),
      getUserMedia platform = Throw e ->
      exists s1,
        startConversation render platform s =
          (Normal tt, s1, [GetUserMedia; ConsoleError "Failed to start conversation:"]) /\
        error s1 = Some microphone_text /\
        isConnecting s1 = false /\
        releases s1 = releases s /\
        (idle s -> idle s1)).
Proof.
  split; [|split].
  - exists (stopped (with_error (Some connection_text) s)), (releases s).
    split; [apply onError_eq|]. split; [reflexivity|].
    split; [apply stopped_idle|]. split; [reflexivity|apply releases_no_start].
  - exists (stopped s), (releases s). unfold onClose.
    split; [apply stopConversation_eq|]. split; [reflexivity|].
    split; [apply stopped_idle|]. split; [reflexivity|apply releases_no_start].
  - intros render platform e He.
    exists (with_isConnecting false (with_error (Some microphone_text) s)).
    split; [|split; [reflexivity|split; [reflexivity|split; [reflexivity|]]]].
    + unfold startConversation, try_catch, bind, setIsConnecting, setError, modify, emit, call.
      rewrite He. destruct s; reflexivity.
    + unfold idle. cbn. intros (? & ? & ? & ? & ? & ? & ? & ? & ? & ?). repeat split; auto.
Qed.

(** A first start refused the microphone. *)
Lemma failure_paths_witness :
  exists s1,
    startConversation (render_of initial) denied initial =
      (Normal tt, s1, [GetUserMedia; ConsoleError "Failed to start conversation:"]) /\
    error s1 = Some microphone_text /\ idle s1.
Proof.
  destruct (failure_paths initial) as (_ & _ & H).
  destruct (H (render_of initial) denied (Error "NotAllowedError" "Permission denied") eq_refl)
    as (s1 & Hs & He & _ & _ & Hidle).
  exists s1. split; [exact Hs|]. split; [exact He|]. apply Hidle.
  unfold idle, context_released. cbn. repeat split; reflexivity.
Defined.

(** C6 as stated fails: a remote close sets no status text, and a start
    that fails after the microphone was granted keeps the stream without
    running the teardown. *)
Lemma failure_without_text_or_teardown :
  error (fst (run [Click microphone; RemoteOpen; RemoteClose] initial)) = None /\
  streamRef (fst (run [Click no_audio] initial)) = Some {| stream_tracks := [0%nat] |} /\
  snd (run [Click no_audio] initial) =
    [GetUserMedia; ConsoleError "Failed to start conversation:"].
Proof. vm_compute. repeat split; reflexivity. Qed.

(** ** One session at a time *)

(** C9. The first session is stopped and a second start is suspended at
    the microphone request when the close of the first session arrives:
    its [stopConversation] clears the connecting flag. The start resumes
    and holds a session with neither flag set, so the next click starts
    a third session over it: two sessions are open. *)
Theorem late_close_opens_two_sessions :
  let s := fst (run late_close initial) in
  let trace := snd (run (late_close ++ [Click microphone]) initial) in
  sessionPromiseRef s <> None /\
  isActive s || isConnecting s = false /\
  open_sessions (snd (run late_close initial)) [] = [7%nat] /\
  open_sessions trace [] = [7%nat; 10%nat].
Proof.
  vm_compute. repeat split; try reflexivity. discriminate.
Qed.

(** X5. In every state in which the controller is active or connecting,
    the button's handler starts nothing: it runs the whole teardown,
    closing the session held, and leaves the controller idle. *)
Theorem click_while_active_stops (s : State) (platform : Platform) :
  isActive s || isConnecting s = true ->
  exists (s1 : State) (trace : list Event),
    toggleConversation platform s = (Normal tt, s1, trace) /\
    idle s1 /\ trace = releases s /\ starts_nothing trace.
Proof.
  intros H. exists (stopped s), (releases s).
  rewrite toggleConversation_eq, H.
  split; [apply stopConversation_eq|]. split; [apply stopped_idle|].
  split; [reflexivity|apply releases_no_start].
Qed.

(** A click on the button of the active controller. *)
Lemma click_while_active_stops_witness :
  exists (s1 : State) (trace : list Event),
    toggleConversation microphone live = (Normal tt, s1, trace) /\
    sessionPromiseRef s1 = None /\ In (SessionClose 2) trace.
Proof.
  destruct (@click_while_active_stops live microphone eq_refl)
    as (s1 & trace & H & Hidle & Ht & _).
  exists s1, trace. split; [exact H|]. split; [apply Hidle|].
  rewrite Ht. vm_compute. auto.
Defined.

(** ** The chat service *)

Import GeminiService.

(** C10. With the client initialised (a non-empty API key), a model
    request that throws makes [getChatResponse] return normally the
    apology text with no sources, after logging; and [handleSendMessage]
    then replaces the placeholder by a message with that text: its own
    catch branch is not taken. *)
Theorem request_failure_is_answered (env : Environment) (key : string) :
  API_KEY env = Some key ->
  truthy key = true ->
  (forall history newMessage image pro search maps geo e,
      generateContent env (request history newMessage image pro search maps geo) = Throw e ->
      getChatResponse env history newMessage image pro search maps geo =
      (Normal {| text := apology; sources := [] |}, ["Error in getChatResponse:"%string])) /\
  (forall (s : Chat.State) (now later : Z) e,
      String.eqb (trim (Chat.input s)) "" = false ->
      Chat.isLoading s = false ->
      generateContent env
        (request (Chat.historyForApi s) (Chat.input s) (Chat.imagePart s)
                 (Chat.useProModel s) (Chat.useSearch s) (Chat.useMaps s)
                 (Chat.geoLocation s)) = Throw e ->
      exists userMessage,
        Chat.messages (fst (Chat.handleSendMessage env now later s)) =
        Chat.messages s ++
        [userMessage;
         {| Chat.id := later + 1; Chat.sender := Chat.AI;
            Chat.message_text := apology; Chat.image := None;
            Chat.message_sources := Some [] |}]).
Proof.
  intros Hkey Htruthy.
  assert (G : forall history newMessage image pro search maps geo e,
      generateContent env (request history newMessage image pro search maps geo) = Throw e ->
      getChatResponse env history newMessage image pro search maps geo =
      (Normal {| text := apology; sources := [] |}, ["Error in getChatResponse:"%string])).
  { intros history newMessage image pro search maps geo e He.
    unfold getChatResponse, getGenAI. rewrite Hkey, Htruthy, He. reflexivity. }
  split; [exact G|].
  intros s now later e Hinput Hloading He.
  unfold Chat.handleSendMessage. rewrite Hinput, Hloading. cbn [orb].
  rewrite (G _ _ _ _ _ _ _ _ He). cbn.
  eexists. rewrite removelast_last. rewrite <- app_assoc. reflexivity.
Qed.

Lemma request_failure_is_answered_witness :
  getChatResponse failing_model [] "Hi" None false false false None =
  (Normal {| text := apology; sources := [] |}, ["Error in getChatResponse:"%string]) /\
  exists userMessage,
    Chat.messages (fst (Chat.handleSendMessage failing_model 10 20 asking)) =
    [userMessage;
     {| Chat.id := 21; Chat.sender := Chat.AI;
        Chat.message_text := apology; Chat.image := None;
        Chat.message_sources := Some [] |}].
Proof.
  destruct (@request_failure_is_answered failing_model "key" eq_refl eq_refl) as [G C].
  split.
  - exact (G [] "Hi"%string None false false false None (Error "ApiError" "503") eq_refl).
  - exact (C asking 10%Z 20%Z (Error "ApiError" "503") eq_refl eq_refl eq_refl).
Defined.

(** ** Quantisation *)

(** C8. The sample 1.0 is stored as -32768, the same as the sample
    -1.0, and decodes to -1.0: two whole units from the original. *)
Theorem full_scale_sample_wraps :
  quantize [1] = [(-32768)%Z] /\
  pcmBlob [1] = pcmBlob [-1] /\
  roundtrip [1] = Normal [-32768 # 32768] /\
  ~ within_step (-32768 # 32768) 1.
Proof.
  repeat split; try (vm_compute; reflexivity).
  unfold within_step. intros H. vm_compute in H. apply H. reflexivity.
Qed.

Lemma trunc_scaled_bounds (x : Q) :
  -1 <= x -> x < 1 ->
  (-32768 <= trunc (x * 32768) <= 32767)%Z /\
  (Z.abs (trunc (x * 32768) * Zpos (Qden x) - Qnum x * 32768) < Zpos (Qden x))%Z.
Proof.
  destruct x as [n d]. unfold Qle, Qlt, trunc. cbn [Qnum Qden Qmult].
  rewrite Pos.mul_1_r. intros Hlo Hhi.
  assert (Hd : (0 < Zpos d)%Z) by lia.
  pose proof (Z.quot_rem' (n * 32768) (Zpos d)) as E.
  set (q := Z.quot (n * 32768) (Zpos d)) in *.
  set (r := Z.rem (n * 32768) (Zpos d)) in *.
  destruct (Z_le_gt_dec 0 n) as [Hn|Hn].
  - assert (Ha : (0 <= n * 32768)%Z) by lia.
    pose proof (Z.rem_bound_pos (n * 32768) (Zpos d) Ha Hd) as B. fold r in B.
    assert (0 <= q)%Z by (apply Z.quot_pos; lia).
    split; [nia|lia].
  - assert (Ha : (n * 32768 <= 0)%Z) by lia.
    pose proof (Z.rem_bound_pos_neg (n * 32768) (Zpos d) Hd Ha) as B. fold r in B.
    split; [nia|lia].
Qed.

Lemma ToInt16_small (x : Q) :
  (-32768 <= trunc x <= 32767)%Z -> ToInt16 x = trunc x.
Proof.
  unfold ToInt16. intros H. cbv zeta.
  destruct (Z.leb_spec 32768 (trunc x mod 65536)); Z.div_mod_to_equations; lia.
Qed.

Lemma int16_bytes_roundtrip (v : Z) (rest : list Z) :
  (-32768 <= v <= 32767)%Z ->
  PCM.int16s_of_bytes (PCM.int16_bytes v ++ rest) =
  option_map (cons v) (PCM.int16s_of_bytes rest).
Proof.
  intros H. cbn [PCM.int16_bytes app PCM.int16s_of_bytes].
  assert (PCM.int16_of_bytes (v mod 256) ((v / 256) mod 256) = v) as ->.
  { unfold PCM.int16_of_bytes. cbv zeta.
    destruct (Z.leb_spec 32768 (v mod 256 + 256 * ((v / 256) mod 256)));
      Z.div_mod_to_equations; lia. }
  destruct (PCM.int16s_of_bytes rest); reflexivity.
Qed.

Lemma within_step_quantized (x : Q) :
  -1 <= x -> x < 1 -> within_step (PCM.sample_of_int16 (ToInt16 (x * 32768))) x.
Proof.
  intros Hlo Hhi. destruct (trunc_scaled_bounds Hlo Hhi) as [Hb Hr].
  rewrite (ToInt16_small _ Hb).
  unfold within_step, PCM.sample_of_int16. apply Qabs_Qle_condition.
  set (t := trunc (x * 32768)) in *. clearbody t.
  destruct x as [n d]. cbn [Qnum Qden] in Hr.
  unfold Qle, Qminus, Qplus, Qopp. cbn [Qnum Qden].
  split; nia.
Qed.

(** X3. For every frame whose samples lie in [-1,1) the bytes of the
    quantised frame decode, by the 16-bit decoding modelled from the
    spec, to as many samples, each within one quantisation step of the
    original. *)
Theorem quantized_frame_within_step (inputData : list Q) (sampleRate : positive) :
  Forall (fun x => -1 <= x /\ x < 1) inputData ->
  exists audioBuffer,
    decodeFragment (PCM.bytes_of_int16s (quantize inputData)) sampleRate 1 = Normal audioBuffer /\
    Forall2 within_step (buffer_samples audioBuffer) inputData.
Proof.
  intros H. unfold decodeFragment.
  assert (E : PCM.int16s_of_bytes (PCM.bytes_of_int16s (quantize inputData)) =
              Some (quantize inputData)).
  { induction H as [|x l [Hlo Hhi] _ IH]; [reflexivity|].
    cbn [quantize map PCM.bytes_of_int16s flat_map].
    rewrite int16_bytes_roundtrip.
    - fold (quantize l). fold (PCM.bytes_of_int16s (quantize l)). rewrite IH. reflexivity.
    - rewrite ToInt16_small; apply (trunc_scaled_bounds Hlo Hhi). }
  rewrite E. eexists. split; [reflexivity|]. cbn [buffer_samples]. clear E.
  induction H as [|x l [Hlo Hhi] _ IH]; [constructor|].
  cbn [quantize map]. constructor; [now apply within_step_quantized | exact IH].
Qed.

Lemma quantized_frame_within_step_witness :
  exists audioBuffer,
    decodeFragment (PCM.bytes_of_int16s (quantize [1 # 2; -1; -1 # 3])) 24000 1 =
      Normal audioBuffer /\
    Forall2 within_step (buffer_samples audioBuffer) [1 # 2; -1; -1 # 3].
Proof.
  apply (@quantized_frame_within_step [1 # 2; -1; -1 # 3] 24000).
  repeat constructor; vm_compute; congruence.
Defined.

(** ** Callbacks after the teardown *)

(** X6. Once [stopConversation] has run, from any state, a late remote
    open does not reactivate the controller and a late capture callback
    forwards no frame: both leave the state as it is and make no call. *)
Theorem late_callbacks_after_stop {codec : AudioUtils} (s : State) (inputData : list Q) :
  exists (s1 : State) (t1 : list Event),
    stopConversation s = (Normal tt, s1, t1) /\
    onOpen s1 = (Normal tt, s1, []) /\
    onaudioprocess inputData s1 = (Normal tt, s1, []).
Proof.
  exists (stopped s), (releases s). split; [apply stopConversation_eq|].
  split; reflexivity.
Qed.


(** ** The quantised frame *)

Lemma ToInt16_int16 (x : Q) : int16 (ToInt16 x).
Proof.
  unfold int16, ToInt16. cbv zeta.
  destruct (Z.leb_spec 32768 (trunc x mod 65536)); Z.div_mod_to_equations; lia.
Qed.

(** X7. Whatever the samples of a frame, in range or not, every
    quantised sample is a signed 16-bit value, every byte of the frame
    is a byte, and the frame has two bytes per sample. *)
Theorem quantized_frame_is_16_bit (inputData : list Q) :
  Forall int16 (quantize inputData) /\
  Forall octet (PCM.bytes_of_int16s (quantize inputData)) /\
  List.length (PCM.bytes_of_int16s (quantize inputData)) = (2 * List.length inputData)%nat.
Proof.
  induction inputData as [|x l (IH1 & IH2 & IH3)]; [repeat split; constructor|].
  cbn [quantize map PCM.bytes_of_int16s flat_map]. fold (quantize l).
  fold (PCM.bytes_of_int16s (quantize l)).
  split; [constructor; [apply ToInt16_int16 | exact IH1]|].
  split.
  - unfold PCM.int16_bytes. cbn [app].
    constructor; [unfold octet; Z.div_mod_to_equations; lia|].
    constructor; [unfold octet; Z.div_mod_to_equations; lia|exact IH2].
  - unfold PCM.int16_bytes. cbn [app List.length]. rewrite IH3. lia.
Qed.

(** ** The chat panel without a key *)

(** X8. Without an API key (absent or empty), [getChatResponse] logs
    "API Key not found." and throws "GoogleGenAI not initialized",
    whatever the model would answer; [handleSendMessage], on a non-blank
    ASCII input while not loading, then takes its catch branch and
    replaces the placeholder by the "trouble" text. *)
Theorem missing_key_reaches_the_catch (env : Environment) :
  API_KEY env = None \/ API_KEY env = Some ""%string ->
  (forall history newMessage image pro search maps geo,
      getChatResponse env history newMessage image pro search maps geo =
      (Throw (Error "Error" "GoogleGenAI not initialized"), ["API Key not found."%string])) /\
  (forall (s : Chat.State) (now later : Z),
      plain (Chat.input s) ->
      String.eqb (trim (Chat.input s)) "" = false ->
      Chat.isLoading s = false ->
      exists userMessage,
        Chat.messages (fst (Chat.handleSendMessage env now later s)) =
        Chat.messages s ++
        [userMessage;
         {| Chat.id := later + 1; Chat.sender := Chat.AI;
            Chat.message_text := Chat.trouble; Chat.image := None;
            Chat.message_sources := None |}]).
Proof.
  intros Hkey.
  assert (G : forall history newMessage image pro search maps geo,
      getChatResponse env history newMessage image pro search maps geo =
      (Throw (Error "Error" "GoogleGenAI not initialized"), ["API Key not found."%string])).
  { intros. unfold getChatResponse, getGenAI. destruct Hkey as [-> | ->]; reflexivity. }
  split; [exact G|].
  intros s now later _ Hinput Hloading.
  unfold Chat.handleSendMessage. rewrite Hinput, Hloading. cbn [orb].
  rewrite G. cbn.
  eexists. rewrite removelast_last. rewrite <- app_assoc. reflexivity.
Qed.

Lemma missing_key_reaches_the_catch_witness :
  exists userMessage,
    Chat.messages (fst (Chat.handleSendMessage keyless 10 20 asking)) =
    [userMessage;
     {| Chat.id := 21; Chat.sender := Chat.AI;
        Chat.message_text := Chat.trouble; Chat.image := None;
        Chat.message_sources := None |}].
Proof.
  destruct (@missing_key_reaches_the_catch keyless (or_introl eq_refl)) as [_ C].
  apply (C asking 10%Z 20%Z); [|reflexivity|reflexivity].
  repeat constructor.
Defined.

(** ** The history sent to the model *)

(** X9. Every entry of the history sent to the model has the role
    "user" or "model" and a single text part, and there are no more
    entries than messages; appending a System message to the panel
    leaves the history as it is, while a User or AI message appends one
    entry with its text. *)
Theorem system_messages_are_not_sent (s : Chat.State) (m : Chat.ChatMessage) :
  let s1 := Chat.setMessages (fun prev => prev ++ [m]) s in
  Forall (fun c => (role c = "user"%string \/ role c = "model"%string) /\
                   exists text, parts c = [TextPart text])
         (Chat.historyForApi s) /\
  (List.length (Chat.historyForApi s) <= List.length (Chat.messages s))%nat /\
  Chat.historyForApi s1 =
    match Chat.sender m with
    | Chat.System => Chat.historyForApi s
    | Chat.AI => Chat.historyForApi s ++ [{| role := "model"; parts := [TextPart (Chat.message_text m)] |}]
    | Chat.User => Chat.historyForApi s ++ [{| role := "user"; parts := [TextPart (Chat.message_text m)] |}]
    end.
Proof.
  cbv zeta. unfold Chat.historyForApi. cbn [Chat.messages Chat.setMessages].
  split; [|split].
  - induction (Chat.messages s) as [|x l IH]; cbn; [constructor|].
    destruct (Chat.sender x) eqn:E; cbn; try exact IH;
      (constructor; [rewrite E; split; [auto|eexists; reflexivity] | exact IH]).
  - rewrite length_map. apply filter_length_le.
  - rewrite filter_app, map_app. cbn.
    destruct (Chat.sender m) eqn:E; cbn; rewrite ?E, ?app_nil_r; reflexivity.
Qed.

